(** * bs-date: Bikram Sambat / Anno Domini date conversion

    A shallow embedding of the JavaScript library [bs-date]
    ([src/config.js], [src/bs-date.js], [src/date-utils.js],
    [src/errors.js], [src/number-utils.js]) and the properties of its
    conversion core.

    Conventions of the embedding.
    - A JavaScript number that the library uses as a year, a month, a day or
      a table entry is an integer of [Z].
    - A Julian day number is a rational of [Q].  Every Julian day number the
      library computes from a BS date is a half-integer below 2^53, and the
      ones it reads from an AD date have six decimals, so the double
      arithmetic of the source is exact on the former and agrees with [Q]
      up to the rounding of the last decimal on the latter.
    - A [Date] is its time value: milliseconds since 1970-01-01T00:00:00Z.
    - [undefined] is [None]; an exception is the [Throw] completion.
    - A [while] loop carries fuel; running out of fuel is the
      [OutOfFuel] completion, and the totality lemmas show that the fuel
      the entry points supply is never exhausted. *)

From Stdlib Require Import ZArith QArith Qround List String Ascii Bool Lia Lqa.
From Stdlib Require Import DecimalString DecimalZ DecimalPos.
Import ListNotations.

Open Scope Z_scope.

(** ** Exceptions and completions *)

(** [src/errors.js] declares the two range errors; [Error] is the host's
    plain error, [TypeError] the host's error for reading a property of
    [undefined]. *)
Inductive error : Type :=
| Error (message : string)
| TypeError
| BSDateOutOfRangeError (message : string)
| DateOutOfRangeError (message : string).

Inductive completion (A : Type) : Type :=
| Return (a : A)
| Throw (e : error)
| OutOfFuel.

Arguments Return {A} a.
Arguments Throw {A} e.
Arguments OutOfFuel {A}.

Definition bind {A B : Type} (c : completion A) (k : A -> completion B)
  : completion B :=
  match c with
  | Return a => k a
  | Throw e => Throw e
  | OutOfFuel => OutOfFuel
  end.

Notation "x <- c ;; k" := (bind c (fun x => k))
  (at level 61, c at next level, right associativity).
Notation "' pat <- c ;; k" :=
  (bind c (fun x => match x with pat => k end))
  (at level 61, pat pattern, c at next level, right associativity).

(** ** Host operations *)

(** [a[i]] on an array: [undefined] outside the array. *)
Definition array_get {A : Type} (a : list A) (i : Z) : option A :=
  if i <? 0 then None else nth_error a (Z.to_nat i).

(** [a.slice(0, end)]: a negative [end] counts from the end of the array. *)
Definition slice0 {A : Type} (a : list A) (e : Z) : list A :=
  if e <? 0 then firstn (Z.to_nat (Z.of_nat (List.length a) + e)) a
  else firstn (Z.to_nat e) a.

(** [a.reduce((acc, curr) => acc + curr, 0)]. *)
Definition reduce_sum (a : list Z) : Z := fold_left Z.add a 0.

(** [Number.prototype.toString] on an integer. *)
Definition number_toString (n : Z) : string :=
  NilZero.string_of_int (Z.to_int n).

(** A value inside a template literal: [undefined] prints as its name. *)
Definition template (v : option string) : string :=
  match v with
  | Some s => s
  | None => "undefined"%string
  end.

(** [x > y] on numbers. *)
Definition Qgtb (x y : Q) : bool := negb (Qle_bool x y).

(** Truncation toward zero, the [ToIntegerOrInfinity] of the [Date]
    constructor. *)
Definition Qtrunc (x : Q) : Z :=
  if Qle_bool 0 x then Qfloor x else Qceiling x.

(** *** The host's [Date] (ECMA-262, 21.4.1) *)
Module JSDate.

Definition msPerDay : Z := 86400000.

Definition DayFromYear (y : Z) : Z :=
  365 * (y - 1970) + (y - 1969) / 4 - (y - 1901) / 100 + (y - 1601) / 400.

Definition InLeapYear (y : Z) : bool :=
  ((y mod 4 =? 0) && negb (y mod 100 =? 0)) || (y mod 400 =? 0).

(** Days of the year before the first day of month [m] (from 0). *)
Definition DayBeforeMonth (leap : bool) (m : Z) : option Z :=
  let l := if leap then 1 else 0 in
  array_get
    [0; 31; 59 + l; 90 + l; 120 + l; 151 + l; 181 + l; 212 + l; 243 + l;
     273 + l; 304 + l; 334 + l] m.

(** [Date.UTC(year, month - 1, date)], the time value of the date-only
    string [yyyy-mm-dd], which the host reads as UTC midnight; a month
    outside 1..12 gives no date, and the day is taken as it is written. *)
Definition parse (year month date : Z) : option Z :=
  match DayBeforeMonth (InLeapYear year) (month - 1) with
  | Some before => Some ((DayFromYear year + before + date - 1) * msPerDay)
  | None => None
  end.

(** [Date.prototype.getDay], in a zone [localTZA] milliseconds ahead of
    UTC. *)
Definition getDay (localTZA : Z) (t : Z) : Z :=
  ((t + localTZA) / msPerDay + 4) mod 7.

End JSDate.

(** *** The [julian] package

    [src/bs-date.js] imports the package [julian] for the bridge between
    a [Date] and its Julian day number; the package is not part of the
    repository. *)
Module Julian.

Definition DAY : Z := 86400000.
Definition UNIX_EPOCH_JULIAN_DATE : Q := 24405875 # 10.

(** [x.toFixed(6)] read back as a number: the nearest multiple of 10^-6,
    the larger one on a tie. *)
Definition toFixed6 (x : Q) : Q :=
  Qfloor (x * inject_Z 1000000 + (1 # 2)) # 1000000.

(** Modelled from the spec: the external utility [toJulianDay] of the
    Gregorian-date / Julian-Day bridge, the call [julian(date)] of the
    [julian] package, whose source is not under src/.  It is the standard
    conversion, the days since the Unix epoch plus 2440587.5, which the
    package prints with six decimals. *)
Definition julian (date : Z) : Q :=
  toFixed6 (inject_Z date / inject_Z DAY + UNIX_EPOCH_JULIAN_DATE)%Q.

(** Modelled from the spec: the external utility [toADDate] of the same
    bridge, the call [julian.toDate(j)] of the [julian] package, whose
    source is not under src/: the date
    [new Date((j - 2440587.5) * 86400000)]. *)
Definition toDate (j : Q) : Z :=
  Qtrunc ((j - UNIX_EPOCH_JULIAN_DATE) * inject_Z DAY)%Q.

End Julian.

(** ** [src/config.js] *)
Module Config.

(** An object literal with integer keys, listed in ascending key order,
    which is also the order of [Object.keys]. *)
Definition monthDaysInBSYear : list (Z * list Z) :=
 [
  (2000, [30; 32; 31; 32; 31; 30; 30; 30; 29; 30; 29; 31]);
  (2001, [31; 31; 32; 31; 31; 31; 30; 29; 30; 29; 30; 30]);
  (2002, [31; 31; 32; 32; 31; 30; 30; 29; 30; 29; 30; 30]);
  (2003, [31; 32; 31; 32; 31; 30; 30; 30; 29; 29; 30; 31]);
  (2004, [30; 32; 31; 32; 31; 30; 30; 30; 29; 30; 29; 31]);
  (2005, [31; 31; 32; 31; 31; 31; 30; 29; 30; 29; 30; 30]);
  (2006, [31; 31; 32; 32; 31; 30; 30; 29; 30; 29; 30; 30]);
  (2007, [31; 32; 31; 32; 31; 30; 30; 30; 29; 29; 30; 31]);
  (2008, [31; 31; 31; 32; 31; 31; 29; 30; 30; 29; 29; 31]);
  (2009, [31; 31; 32; 31; 31; 31; 30; 29; 30; 29; 30; 30]);
  (2010, [31; 31; 32; 32; 31; 30; 30; 29; 30; 29; 30; 30]);
  (2011, [31; 32; 31; 32; 31; 30; 30; 30; 29; 29; 30; 31]);
  (2012, [31; 31; 31; 32; 31; 31; 29; 30; 30; 29; 30; 30]);
  (2013, [31; 31; 32; 31; 31; 31; 30; 29; 30; 29; 30; 30]);
  (2014, [31; 31; 32; 32; 31; 30; 30; 29; 30; 29; 30; 30]);
  (2015, [31; 32; 31; 32; 31; 30; 30; 30; 29; 29; 30; 31]);
  (2016, [31; 31; 31; 32; 31; 31; 29; 30; 30; 29; 30; 30]);
  (2017, [31; 31; 32; 31; 31; 31; 30; 29; 30; 29; 30; 30]);
  (2018, [31; 32; 31; 32; 31; 30; 30; 29; 30; 29; 30; 30]);
  (2019, [31; 32; 31; 32; 31; 30; 30; 30; 29; 30; 29; 31]);
  (2020, [31; 31; 31; 32; 31; 31; 30; 29; 30; 29; 30; 30]);
  (2021, [31; 31; 32; 31; 31; 31; 30; 29; 30; 29; 30; 30]);
  (2022, [31; 32; 31; 32; 31; 30; 30; 30; 29; 29; 30; 30]);
  (2023, [31; 32; 31; 32; 31; 30; 30; 30; 29; 30; 29; 31]);
  (2024, [31; 31; 31; 32; 31; 31; 30; 29; 30; 29; 30; 30]);
  (2025, [31; 31; 32; 31; 31; 31; 30; 29; 30; 29; 30; 30]);
  (2026, [31; 32; 31; 32; 31; 30; 30; 30; 29; 29; 30; 31]);
  (2027, [30; 32; 31; 32; 31; 30; 30; 30; 29; 30; 29; 31]);
  (2028, [31; 31; 32; 31; 31; 31; 30; 29; 30; 29; 30; 30]);
  (2029, [31; 31; 32; 31; 32; 30; 30; 29; 30; 29; 30; 30]);
  (2030, [31; 32; 31; 32; 31; 30; 30; 30; 29; 29; 30; 31]);
  (2031, [30; 32; 31; 32; 31; 30; 30; 30; 29; 30; 29; 31]);
  (2032, [31; 31; 32; 31; 31; 31; 30; 29; 30; 29; 30; 30]);
  (2033, [31; 31; 32; 32; 31; 30; 30; 29; 30; 29; 30; 30]);
  (2034, [31; 32; 31; 32; 31; 30; 30; 30; 29; 29; 30; 31]);
  (2035, [30; 32; 31; 32; 31; 31; 29; 30; 30; 29; 29; 31]);
  (2036, [31; 31; 32; 31; 31; 31; 30; 29; 30; 29; 30; 30]);
  (2037, [31; 31; 32; 32; 31; 30; 30; 29; 30; 29; 30; 30]);
  (2038, [31; 32; 31; 32; 31; 30; 30; 30; 29; 29; 30; 31]);
  (2039, [31; 31; 31; 32; 31; 31; 29; 30; 30; 29; 30; 30]);
  (2040, [31; 31; 32; 31; 31; 31; 30; 29; 30; 29; 30; 30]);
  (2041, [31; 31; 32; 32; 31; 30; 30; 29; 30; 29; 30; 30]);
  (2042, [31; 32; 31; 32; 31; 30; 30; 30; 29; 29; 30; 31]);
  (2043, [31; 31; 31; 32; 31; 31; 29; 30; 30; 29; 30; 30]);
  (2044, [31; 31; 32; 31; 31; 31; 30; 29; 30; 29; 30; 30]);
  (2045, [31; 32; 31; 32; 31; 30; 30; 29; 30; 29; 30; 30]);
  (2046, [31; 32; 31; 32; 31; 30; 30; 30; 29; 29; 30; 31]);
  (2047, [31; 31; 31; 32; 31; 31; 30; 29; 30; 29; 30; 30]);
  (2048, [31; 31; 32; 31; 31; 31; 30; 29; 30; 29; 30; 30]);
  (2049, [31; 32; 31; 32; 31; 30; 30; 30; 29; 29; 30; 30]);
  (2050, [31; 32; 31; 32; 31; 30; 30; 30; 29; 30; 29; 31]);
  (2051, [31; 31; 31; 32; 31; 31; 30; 29; 30; 29; 30; 30]);
  (2052, [31; 31; 32; 31; 31; 31; 30; 29; 30; 29; 30; 30]);
  (2053, [31; 32; 31; 32; 31; 30; 30; 30; 29; 29; 30; 30]);
  (2054, [31; 32; 31; 32; 31; 30; 30; 30; 29; 30; 29; 31]);
  (2055, [31; 31; 32; 31; 31; 31; 30; 29; 30; 29; 30; 30]);
  (2056, [31; 31; 32; 31; 32; 30; 30; 29; 30; 29; 30; 30]);
  (2057, [31; 32; 31; 32; 31; 30; 30; 30; 29; 29; 30; 31]);
  (2058, [30; 32; 31; 32; 31; 30; 30; 30; 29; 30; 29; 31]);
  (2059, [31; 31; 32; 31; 31; 31; 30; 29; 30; 29; 30; 30]);
  (2060, [31; 31; 32; 32; 31; 30; 30; 29; 30; 29; 30; 30]);
  (2061, [31; 32; 31; 32; 31; 30; 30; 30; 29; 29; 30; 31]);
  (2062, [30; 32; 31; 32; 31; 31; 29; 30; 29; 30; 29; 31]);
  (2063, [31; 31; 32; 31; 31; 31; 30; 29; 30; 29; 30; 30]);
  (2064, [31; 31; 32; 32; 31; 30; 30; 29; 30; 29; 30; 30]);
  (2065, [31; 32; 31; 32; 31; 30; 30; 30; 29; 29; 30; 31]);
  (2066, [31; 31; 31; 32; 31; 31; 29; 30; 30; 29; 29; 31]);
  (2067, [31; 31; 32; 31; 31; 31; 30; 29; 30; 29; 30; 30]);
  (2068, [31; 31; 32; 32; 31; 30; 30; 29; 30; 29; 30; 30]);
  (2069, [31; 32; 31; 32; 31; 30; 30; 30; 29; 29; 30; 31]);
  (2070, [31; 31; 31; 32; 31; 31; 29; 30; 30; 29; 30; 30]);
  (2071, [31; 31; 32; 31; 31; 31; 30; 29; 30; 29; 30; 30]);
  (2072, [31; 32; 31; 32; 31; 30; 30; 29; 30; 29; 30; 30]);
  (2073, [31; 32; 31; 32; 31; 30; 30; 30; 29; 29; 30; 31]);
  (2074, [31; 31; 31; 32; 31; 31; 30; 29; 30; 29; 30; 30]);
  (2075, [31; 31; 32; 31; 31; 31; 30; 29; 30; 29; 30; 30]);
  (2076, [31; 32; 31; 32; 31; 30; 30; 30; 29; 29; 30; 30]);
  (2077, [31; 32; 31; 32; 31; 30; 30; 30; 29; 30; 29; 31]);
  (2078, [31; 31; 31; 32; 31; 31; 30; 29; 30; 29; 30; 30]);
  (2079, [31; 31; 32; 31; 31; 31; 30; 29; 30; 29; 30; 30]);
  (2080, [31; 32; 31; 32; 31; 30; 30; 30; 29; 29; 30; 30]);
  (2081, [31; 31; 32; 32; 31; 30; 30; 30; 29; 30; 30; 30]);
  (2082, [30; 32; 31; 32; 31; 30; 30; 30; 29; 30; 30; 30]);
  (2083, [31; 31; 32; 31; 31; 30; 30; 30; 29; 30; 30; 30]);
  (2084, [31; 31; 32; 31; 31; 30; 30; 30; 29; 30; 30; 30]);
  (2085, [31; 32; 31; 32; 30; 31; 30; 30; 29; 30; 30; 30]);
  (2086, [30; 32; 31; 32; 31; 30; 30; 30; 29; 30; 30; 30]);
  (2087, [31; 31; 32; 31; 31; 31; 30; 30; 29; 30; 30; 30]);
  (2088, [30; 31; 32; 32; 30; 31; 30; 30; 29; 30; 30; 30]);
  (2089, [30; 32; 31; 32; 31; 30; 30; 30; 29; 30; 30; 30]);
  (2090, [30; 32; 31; 32; 31; 30; 30; 30; 29; 30; 30; 30])
 ].

Definition months : list (string * string) :=
  [ ("बैशाख", "Baisakh"); ("जेठ", "Jeth"); ("असार", "Asar");
    ("श्रावण", "Shrawan"); ("भाद्र", "Bhadra"); ("आश्विन", "Ashwin");
    ("कार्तिक", "Kartik"); ("मंसिर", "Mangsir"); ("पुष", "Poush");
    ("माघ", "Magh"); ("फाल्गुण", "Falgun"); ("चैत", "Chaitra") ]%string.

Definition weekdays : list (string * string) :=
  [ ("आइतबार", "Aaitabar"); ("सोमबार", "Sombar"); ("मंगलवार", "Mangalbar");
    ("बुधबार", "Budhbar"); ("बिहीबार", "Bihibar"); ("शुक्रबार", "Shukrabar");
    ("शनिवार", "Shanibar") ]%string.

Definition weekdaysLocal : list string :=
  [ "Sunday"; "Monday"; "Tuesday"; "Wednesday"; "Thursday"; "Friday";
    "Saturday" ]%string.

Definition epochBS : Z * Z * Z := (2000, 1, 1).

(** [new Date("1943-04-14")] and [new Date("2034-04-13")], as time
    values. *)
Definition epochADStart : Z := -843177600000.
Definition epochADEnd : Z := 2028499200000.

Definition epochJulianDays : Q := 24308285 # 10.

End Config.

(** ** [src/number-utils.js] *)
Module Number.

Definition NEPALI_DIGITS (digit : ascii) : option string :=
  match digit with
  | "0"%char => Some "०"
  | "1"%char => Some "१"
  | "2"%char => Some "२"
  | "3"%char => Some "३"
  | "4"%char => Some "४"
  | "5"%char => Some "५"
  | "6"%char => Some "६"
  | "7"%char => Some "७"
  | "8"%char => Some "८"
  | "9"%char => Some "९"
  | _ => None
  end%string.

(** [join] with the empty separator; an [undefined] element prints as
    the empty string. *)
Definition join (parts : list (option string)) : string :=
  fold_right
    (fun p acc => match p with Some s => (s ++ acc)%string | None => acc end)
    EmptyString parts.

(** [Number.prototype.toNepali]. *)
Definition toNepali (n : Z) : string :=
  join (map NEPALI_DIGITS (list_ascii_of_string (number_toString n))).

End Number.

(** ** [src/bs-date.js] *)
Module BSDate.

Record t : Type := mk { year : Z; month : Z; day : Z }.

(** A constructor argument: [None] is an argument that was not passed
    ([undefined]).  [!v] holds of [undefined] and of [0]. *)
Definition falsy (v : option Z) : bool :=
  match v with
  | None => true
  | Some n => n =? 0
  end.

Definition field (v : option Z) : Z :=
  match v with
  | Some n => n
  | None => 0
  end.

Definition constructor (year month day : option Z) : completion t :=
  if falsy year || falsy month || falsy day then
    Throw (Error "Year, month, and day are required")
  else
    Return (mk (field year) (field month) (field day)).

(** [monthDaysInBSYear[year]]; also decides
    [Object.hasOwn(monthDaysInBSYear, year)]. *)
Fixpoint lookup (table : list (Z * list Z)) (year : Z) : option (list Z) :=
  match table with
  | [] => None
  | (k, row) :: rest => if k =? year then Some row else lookup rest year
  end.

Definition table_get (year : Z) : option (list Z) :=
  lookup Config.monthDaysInBSYear year.

(** [Object.keys(monthDaysInBSYear)]. *)
Definition table_keys : list string :=
  map (fun entry => number_toString (fst entry)) Config.monthDaysInBSYear.

Definition validDate (d : t) : bool :=
  match table_get (year d) with
  | None => false
  | Some row =>
      (month d >? 0) && (month d <=? 12) && (day d >? 0) &&
      match array_get row (month d - 1) with
      | Some len => day d <=? len
      | None => false
      end
  end.

Definition range_message (d : t) : string :=
  ("Year " ++ number_toString (year d) ++ " is out of valid range ("
    ++ template (array_get table_keys 0) ++ "-"
    ++ template (array_get table_keys (Z.of_nat (List.length table_keys) - 1))
    ++ ")")%string.

Definition validateBSDate (d : t) : completion bool :=
  if negb (validDate d) then Throw (BSDateOutOfRangeError (range_message d))
  else Return true.

(** The [for] loop of [#bsToJulianDays], which runs for the years from
    [epochBS[0]] to [this.year - 1]: [n] iterations from [year]. *)
Fixpoint add_years (n : nat) (year : Z) (julianDays : Q) : completion Q :=
  match n with
  | O => Return julianDays
  | S n' =>
      match table_get year with
      | None => Throw TypeError
      | Some row =>
          add_years n' (year + 1)
            (julianDays + inject_Z (reduce_sum row))%Q
      end
  end.

Definition bsToJulianDays (d : t) : completion Q :=
  let '(epochYear, _, _) := Config.epochBS in
  julianDays <-
    add_years (Z.to_nat (year d - epochYear)) epochYear
      Config.epochJulianDays ;;
  match table_get (year d) with
  | None => Throw TypeError
  | Some row =>
      let julianDays :=
        (julianDays + inject_Z (reduce_sum (slice0 row (month d - 1))))%Q in
      Return (julianDays + inject_Z (day d - 1))%Q
  end.

(** The year loop of [#julianDaysToBS]. *)
Fixpoint year_scan (fuel : nat) (year : Z) (remainingDays : Q)
  : completion (Z * Q) :=
  match fuel with
  | O => OutOfFuel
  | S fuel' =>
      match table_get year with
      | None => Throw TypeError
      | Some row =>
          if Qgtb remainingDays (inject_Z (reduce_sum row)) then
            year_scan fuel' (year + 1)
              (remainingDays - inject_Z (reduce_sum row))%Q
          else Return (year, remainingDays)
      end
  end.

(** The month loop of [#julianDaysToBS]; a comparison with [undefined]
    is false. *)
Fixpoint month_scan (fuel : nat) (year month : Z) (remainingDays : Q)
  : completion (Z * Q) :=
  match fuel with
  | O => OutOfFuel
  | S fuel' =>
      match table_get year with
      | None => Throw TypeError
      | Some row =>
          match array_get row (month - 1) with
          | None => Return (month, remainingDays)
          | Some len =>
              if Qgtb remainingDays (inject_Z len) then
                month_scan fuel' year (month + 1)
                  (remainingDays - inject_Z len)%Q
              else Return (month, remainingDays)
          end
      end
  end.

(** Fuel for the two loops: the year loop leaves the table after one
    step per key, the month loop leaves the row after twelve. *)
Definition year_fuel : nat := S (List.length Config.monthDaysInBSYear).
Definition month_fuel : nat := 13.

Definition julianDaysToBS (julianDays : Q) : completion (Z * Z * Z) :=
  let '(epochYear, _, _) := Config.epochBS in
  let remainingDays := (julianDays - Config.epochJulianDays)%Q in
  '(year, remainingDays) <- year_scan year_fuel epochYear remainingDays ;;
  '(month, remainingDays) <- month_scan month_fuel year 1 remainingDays ;;
  let day := Qceiling (remainingDays + 1) in
  Return (year, month, day).

Definition fromAD (adDate : Z) : completion t :=
  '(year, month, day) <- julianDaysToBS (Julian.julian adDate) ;;
  constructor (Some year) (Some month) (Some day).

Definition toAD (d : t) : completion Z :=
  _ <- validateBSDate d ;;
  julianDays <- bsToJulianDays d ;;
  Return (Julian.toDate julianDays).

(** [Object.keys(o)[i]] and [Object.values(o)[i]]. *)
Definition keys_at (o : list (string * string)) (i : Z) : option string :=
  array_get (map fst o) i.
Definition values_at (o : list (string * string)) (i : Z) : option string :=
  array_get (map snd o) i.

Definition monthName (romanized : bool) (d : t) : option string :=
  if romanized then values_at Config.months (month d - 1)
  else keys_at Config.months (month d - 1).

Definition toNepali (d : t) : string :=
  (template (monthName false d) ++ " " ++ Number.toNepali (day d) ++ ", "
    ++ Number.toNepali (year d))%string.

(** [localTZA] is the offset of the host's zone, which [getDay] reads. *)
Definition dayName (localTZA : Z) (romanized localized : bool) (d : t)
  : completion (option string) :=
  if romanized && localized then
    Throw (Error "You must provide exactly one of :romanized or :localized")
  else
    adDate <- toAD d ;;
    if localized then
      Return (array_get Config.weekdaysLocal (JSDate.getDay localTZA adDate))
    else
      Return (if romanized
              then values_at Config.weekdays (JSDate.getDay localTZA adDate)
              else keys_at Config.weekdays (JSDate.getDay localTZA adDate)).

End BSDate.

(** ** [src/date-utils.js] *)
Module Date.

(** [Date.prototype.toBS], on the time value of the receiver. *)
Definition toBS (this : Z) : completion BSDate.t :=
  if (this <? Config.epochADStart) || (this >? Config.epochADEnd) then
    Throw (DateOutOfRangeError "Date is out of range")
  else BSDate.fromAD this.

End Date.

(** ** Specification-level notions *)
Module Spec.

Import BSDate.

(** A date is valid when its year is a key of the table, its month is in
    1..12 and its day is in 1..length of that month. *)
Definition valid (d : t) : Prop :=
  exists row len,
    table_get (year d) = Some row /\
    1 <= month d <= 12 /\
    array_get row (month d - 1) = Some len /\
    1 <= day d <= len.

(** Lexicographic order on (year, month, day). *)
Definition lex_lt (d1 d2 : t) : Prop :=
  year d1 < year d2 \/
  (year d1 = year d2 /\
   (month d1 < month d2 \/ (month d1 = month d2 /\ day d1 < day d2))).

Definition sumZ (l : list Z) : Z := fold_right Z.add 0 l.

Definition year_total (year : Z) : Z :=
  match table_get year with
  | Some row => sumZ row
  | None => 0
  end.

(** Days in the [n] table years that start at [year]. *)
Fixpoint year_days (n : nat) (year : Z) : Z :=
  match n with
  | O => 0
  | S n' => year_total year + year_days n' (year + 1)
  end.

(** Days in the whole table. *)
Definition table_days : Z :=
  sumZ (map (fun entry => sumZ (snd entry)) Config.monthDaysInBSYear).

(** Days from the epoch to a date of the table. *)
Definition day_offset (d : t) : Z :=
  year_days (Z.to_nat (year d - 2000)) 2000
  + match table_get (year d) with
    | Some row => sumZ (firstn (Z.to_nat (month d - 1)) row)
    | None => 0
    end
  + (day d - 1).

(** A BS date to its Julian day and back, as triple. *)
Definition round_trip (d : t) : completion (Z * Z * Z) :=
  julianDays <- bsToJulianDays d ;; julianDaysToBS julianDays.

(** Two counts of days since the epoch that lie in the same day: the
    second is the whole day that ends the day of the first. *)
Definition same_day (r1 r2 : Q) : Prop :=
  exists k : Z,
    (r2 == inject_Z k)%Q /\ (inject_Z k - 1 < r1)%Q /\ (r1 <= inject_Z k)%Q.

(** Two outcomes of a scan that stop at the same place with days left in
    the same day, or fail alike. *)
Definition same_day_scan (c1 c2 : completion (Z * Q)) : Prop :=
  match c1, c2 with
  | Return (p1, r1), Return (p2, r2) => p1 = p2 /\ same_day r1 r2
  | Throw e1, Throw e2 => e1 = e2
  | OutOfFuel, OutOfFuel => True
  | _, _ => False
  end.

(** A month length of the table and the total of a year. *)
Definition row_shape (entry : Z * list Z) : bool :=
  forallb (fun len => (29 <=? len) && (len <=? 32)) (snd entry)
  && ((sumZ (snd entry) =? 365) || (sumZ (snd entry) =? 366)).

Definition row_ok (entry : Z * list Z) : bool :=
  (2000 <=? fst entry) && (fst entry <=? 2090)
  && (List.length (snd entry) =? 12)%nat
  && forallb (fun len => 0 <? len) (snd entry).

End Spec.

(** * Properties *)

Import BSDate Spec.

(** ** Arithmetic helpers *)

Lemma Qgtb_true (x y : Q) : Qgtb x y = true <-> (y < x)%Q.
Proof.
  unfold Qgtb. rewrite negb_true_iff. split; intro H.
  - apply Qnot_le_lt. intro Hle. apply Qle_bool_iff in Hle. congruence.
  - destruct (Qle_bool x y) eqn:E; [|reflexivity].
    apply Qle_bool_iff in E. exfalso. apply (Qlt_not_le _ _ H E).
Qed.

Lemma Qgtb_false (x y : Q) : Qgtb x y = false <-> (x <= y)%Q.
Proof.
  unfold Qgtb. rewrite negb_false_iff. apply Qle_bool_iff.
Qed.

Lemma sumZ_nil : sumZ [] = 0.
Proof. reflexivity. Qed.

Lemma sumZ_cons (x : Z) (l : list Z) : sumZ (x :: l) = x + sumZ l.
Proof. reflexivity. Qed.

Lemma fold_left_add (l : list Z) (a : Z) : fold_left Z.add l a = a + sumZ l.
Proof.
  revert a. induction l as [|x l IH]; intro a; cbn [fold_left].
  - rewrite sumZ_nil. lia.
  - rewrite IH, sumZ_cons. lia.
Qed.

Lemma reduce_sum_sumZ (l : list Z) : reduce_sum l = sumZ l.
Proof. unfold reduce_sum. rewrite fold_left_add. lia. Qed.

Lemma sumZ_nonneg (l : list Z) : Forall (fun x => 0 < x) l -> 0 <= sumZ l.
Proof.
  induction 1 as [|x l Hx _ IH]; [rewrite sumZ_nil; lia|].
  rewrite sumZ_cons. lia.
Qed.

Lemma Forall_firstn (P : Z -> Prop) (k : nat) (l : list Z) :
  Forall P l -> Forall P (firstn k l).
Proof.
  intro H. revert k. induction H as [|x l Hx _ IH]; intro k.
  - destruct k; constructor.
  - destruct k as [|k]; cbn [firstn]; constructor; auto.
Qed.

Lemma Forall_skipn (P : Z -> Prop) (k : nat) (l : list Z) :
  Forall P l -> Forall P (skipn k l).
Proof.
  intro H. revert k. induction H as [|x l Hx Hl IH]; intro k.
  - destruct k; constructor.
  - destruct k as [|k]; cbn [skipn]; [constructor|]; auto.
Qed.

(** A prefix and the entry after it stay within the whole. *)
Lemma sumZ_firstn_nth (l : list Z) (k : nat) (len : Z) :
  Forall (fun x => 0 < x) l -> nth_error l k = Some len ->
  sumZ (firstn k l) + len <= sumZ l.
Proof.
  intro Hpos. revert k. induction Hpos as [|x l Hx Hl IH]; intros k Hk.
  - destruct k; discriminate.
  - destruct k as [|k]; cbn [nth_error firstn] in *.
    + injection Hk as <-. rewrite sumZ_cons, sumZ_nil.
      pose proof (sumZ_nonneg l Hl). lia.
    + rewrite !sumZ_cons. specialize (IH k Hk). lia.
Qed.

(** A prefix and the entry after it stay within every longer prefix. *)
Lemma sumZ_firstn_lt (l : list Z) (k1 k2 : nat) (len : Z) :
  Forall (fun x => 0 < x) l -> nth_error l k1 = Some len -> (k1 < k2)%nat ->
  sumZ (firstn k1 l) + len <= sumZ (firstn k2 l).
Proof.
  intro Hpos. revert k1 k2.
  induction Hpos as [|x l Hx Hl IH]; intros k1 k2 Hk Hlt.
  - destruct k1; discriminate.
  - destruct k2 as [|k2]; [lia|].
    destruct k1 as [|k1]; cbn [nth_error firstn] in *.
    + injection Hk as <-. rewrite sumZ_cons, sumZ_nil.
      pose proof (sumZ_nonneg _ (Forall_firstn _ k2 _ Hl)). lia.
    + rewrite !sumZ_cons.
      assert (Hlt' : (k1 < k2)%nat) by lia.
      specialize (IH k1 k2 Hk Hlt'). lia.
Qed.

(** ** The table *)

Lemma lookup_In (table : list (Z * list Z)) (y : Z) (row : list Z) :
  lookup table y = Some row -> In (y, row) table.
Proof.
  induction table as [|[k r] rest IH]; simpl; [discriminate|].
  destruct (k =? y) eqn:E.
  - intro H. injection H as <-. apply Z.eqb_eq in E. subst. now left.
  - intro H. right. now apply IH.
Qed.

Lemma lookup_key (table : list (Z * list Z)) (y : Z) :
  In y (map fst table) -> exists row, lookup table y = Some row.
Proof.
  induction table as [|[k r] rest IH]; simpl; [tauto|].
  intros [<- | Hin].
  - rewrite Z.eqb_refl. now exists r.
  - destruct (k =? y); [now exists r | now apply IH].
Qed.

Lemma table_rows_ok : forallb row_ok Config.monthDaysInBSYear = true.
Proof. vm_compute. reflexivity. Qed.

Lemma table_keys_consecutive :
  map fst Config.monthDaysInBSYear
  = map (fun k => 2000 + Z.of_nat k) (seq 0 91).
Proof. vm_compute. reflexivity. Qed.

Lemma table_get_Some (y : Z) (row : list Z) :
  table_get y = Some row ->
  2000 <= y <= 2090 /\ List.length row = 12%nat /\ Forall (fun x => 0 < x) row.
Proof.
  intro H. apply lookup_In in H.
  pose proof (proj1 (forallb_forall _ _) table_rows_ok _ H) as Hok.
  unfold row_ok in Hok. simpl in Hok.
  rewrite !andb_true_iff in Hok. destruct Hok as [[[H1 H2] H3] H4].
  repeat split; try lia.
  - now apply Nat.eqb_eq.
  - apply Forall_forall. intros x Hx.
    apply (proj1 (forallb_forall _ _) H4) in Hx. lia.
Qed.

Lemma table_get_in_range (y : Z) :
  2000 <= y <= 2090 -> exists row, table_get y = Some row.
Proof.
  intro Hy. apply lookup_key. rewrite table_keys_consecutive.
  apply in_map_iff. exists (Z.to_nat (y - 2000)). split; [lia|].
  apply in_seq. lia.
Qed.

Lemma table_get_None (y : Z) : y < 2000 \/ 2090 < y -> table_get y = None.
Proof.
  intro Hy. destruct (table_get y) as [row|] eqn:E; [|reflexivity].
  apply table_get_Some in E. lia.
Qed.

Lemma array_get_row (row : list Z) (i : Z) :
  List.length row = 12%nat ->
  (0 <= i < 12 -> exists len, array_get row i = Some len) /\
  (i < 0 \/ 12 <= i -> array_get row i = None).
Proof.
  intro Hlen. unfold array_get. split.
  - intro Hi. destruct (i <? 0) eqn:E; [lia|].
    destruct (nth_error row (Z.to_nat i)) as [len|] eqn:En; [now exists len|].
    apply nth_error_None in En. lia.
  - intros [Hi|Hi].
    + destruct (i <? 0) eqn:E; [reflexivity|lia].
    + destruct (i <? 0); [reflexivity|]. apply nth_error_None. lia.
Qed.

Lemma year_total_pos (y : Z) : 2000 <= y <= 2090 -> 0 < year_total y.
Proof.
  intro Hy. unfold year_total.
  destruct (table_get_in_range y Hy) as [row Hrow]. rewrite Hrow.
  destruct (table_get_Some _ _ Hrow) as (_ & Hlen & Hpos).
  destruct row as [|x row]; [discriminate|].
  rewrite sumZ_cons. inversion Hpos; subst.
  pose proof (sumZ_nonneg row H2). lia.
Qed.

Lemma year_days_app (n m : nat) (y : Z) :
  year_days (n + m) y = year_days n y + year_days m (y + Z.of_nat n).
Proof.
  revert y. induction n as [|n IH]; intro y.
  - cbn [year_days Nat.add]. replace (y + Z.of_nat 0) with y by lia. lia.
  - cbn [year_days Nat.add]. rewrite IH.
    replace (y + 1 + Z.of_nat n) with (y + Z.of_nat (S n)) by lia. lia.
Qed.

Lemma year_days_nonneg (n : nat) (y : Z) :
  2000 <= y -> y + Z.of_nat n <= 2091 -> 0 <= year_days n y.
Proof.
  revert y. induction n as [|n IH]; intros y Hlo Hhi; cbn [year_days]; [lia|].
  assert (Hy : 2000 <= y <= 2090) by lia.
  pose proof (year_total_pos y Hy).
  assert (0 <= year_days n (y + 1)) by (apply IH; lia). lia.
Qed.

Lemma table_days_value : table_days = 33238.
Proof. vm_compute. reflexivity. Qed.

Lemma year_days_table : year_days 91 2000 = table_days.
Proof. vm_compute. reflexivity. Qed.

(** ** Validation *)

Lemma validDate_valid (d : t) : validDate d = true <-> valid d.
Proof.
  unfold validDate, valid. rewrite !Z.gtb_ltb. split.
  - destruct (table_get (year d)) as [row|] eqn:Hrow; [|discriminate].
    rewrite !andb_true_iff. intros [[[H1 H2] H3] H4].
    destruct (array_get row (month d - 1)) as [len|] eqn:Hlen;
      [|discriminate].
    exists row, len. repeat split; try reflexivity; try assumption; lia.
  - intros (row & len & Hrow & Hm & Hlen & Hd).
    rewrite Hrow, Hlen, !andb_true_iff. repeat split; lia.
Qed.

Lemma validDate_invalid (d : t) : validDate d = false <-> ~ valid d.
Proof.
  rewrite <- validDate_valid. destruct (validDate d); split; congruence.
Qed.

Lemma range_message_bounds (d : t) :
  range_message d
  = ("Year " ++ number_toString (year d)
       ++ " is out of valid range (2000-2090)")%string.
Proof. reflexivity. Qed.

(** ** From a BS date to its Julian day *)

Lemma add_years_spec (n : nat) (y : Z) (j : Q) :
  2000 <= y -> y + Z.of_nat n <= 2091 ->
  exists j', add_years n y j = Return j'
             /\ (j' == j + inject_Z (year_days n y))%Q.
Proof.
  revert y j. induction n as [|n IH]; intros y j Hlo Hhi.
  - exists j. split; [reflexivity|]. cbn [year_days].
    change (inject_Z 0) with 0%Q. lra.
  - assert (Hy : 2000 <= y <= 2090) by lia.
    destruct (table_get_in_range y Hy) as [row Hrow].
    cbn [add_years year_days]. rewrite Hrow.
    destruct (IH (y + 1) (j + inject_Z (reduce_sum row))%Q) as (j' & Hj & Heq);
      [lia | lia |].
    exists j'. split; [exact Hj|].
    rewrite Heq, reduce_sum_sumZ, inject_Z_plus.
    unfold year_total. rewrite Hrow. lra.
Qed.

Lemma bsToJulianDays_spec (d : t) :
  validDate d = true ->
  exists j, bsToJulianDays d = Return j
            /\ (j == Config.epochJulianDays + inject_Z (day_offset d))%Q.
Proof.
  intro Hv. apply validDate_valid in Hv.
  destruct Hv as (row & len & Hrow & Hm & Hlen & Hd).
  destruct (table_get_Some _ _ Hrow) as (Hy & _ & _).
  unfold bsToJulianDays. cbn [Config.epochBS].
  destruct (add_years_spec (Z.to_nat (year d - 2000)) 2000
              Config.epochJulianDays) as (j0 & Hj0 & Heq0); [lia | lia |].
  rewrite Hj0. cbn [bind]. rewrite Hrow.
  eexists. split; [reflexivity|].
  unfold day_offset. rewrite Hrow, Heq0, reduce_sum_sumZ.
  unfold slice0. destruct (month d - 1 <? 0) eqn:E; [lia|].
  rewrite !inject_Z_plus. lra.
Qed.

Lemma array_get_nth {A : Type} (a : list A) (i : Z) (x : A) :
  array_get a i = Some x -> 0 <= i /\ nth_error a (Z.to_nat i) = Some x.
Proof.
  unfold array_get. destruct (i <? 0) eqn:E; [discriminate|].
  intro H. split; [lia | exact H].
Qed.

(** The days of a valid date lie inside its year. *)
Lemma day_offset_bounds (d : t) :
  validDate d = true ->
  year_days (Z.to_nat (year d - 2000)) 2000 <= day_offset d
  /\ day_offset d
     < year_days (Z.to_nat (year d - 2000)) 2000 + year_total (year d).
Proof.
  intro Hv. apply validDate_valid in Hv.
  destruct Hv as (row & len & Hrow & Hm & Hlen & Hd).
  destruct (table_get_Some _ _ Hrow) as (Hy & _ & Hpos).
  apply array_get_nth in Hlen. destruct Hlen as [_ Hnth].
  unfold day_offset, year_total. rewrite Hrow.
  pose proof (sumZ_firstn_nth _ _ _ Hpos Hnth).
  pose proof (sumZ_nonneg _ (Forall_firstn _ (Z.to_nat (month d - 1)) _ Hpos)).
  lia.
Qed.

Lemma day_offset_lt (d1 d2 : t) :
  validDate d1 = true -> validDate d2 = true -> lex_lt d1 d2 ->
  day_offset d1 < day_offset d2.
Proof.
  intros Hv1 Hv2 Hlt.
  pose proof (day_offset_bounds d1 Hv1) as [_ Hhi1].
  pose proof (day_offset_bounds d2 Hv2) as [Hlo2 _].
  apply validDate_valid in Hv1, Hv2.
  destruct Hv1 as (row1 & len1 & Hrow1 & Hm1 & Hlen1 & Hd1).
  destruct Hv2 as (row2 & len2 & Hrow2 & Hm2 & Hlen2 & Hd2).
  destruct (table_get_Some _ _ Hrow1) as (Hy1 & _ & Hpos1).
  destruct (table_get_Some _ _ Hrow2) as (Hy2 & _ & _).
  destruct Hlt as [Hy | [Hy [Hm | [Hm Hd]]]].
  - (* an earlier year *)
    replace (Z.to_nat (year d2 - 2000))
      with (Z.to_nat (year d1 - 2000) + S (Z.to_nat (year d2 - year d1 - 1)))%nat
      in Hlo2 by lia.
    rewrite year_days_app in Hlo2. cbn [year_days] in Hlo2.
    replace (2000 + Z.of_nat (Z.to_nat (year d1 - 2000))) with (year d1)
      in Hlo2 by lia.
    assert (0 <= year_days (Z.to_nat (year d2 - year d1 - 1)) (year d1 + 1))
      by (apply year_days_nonneg; lia).
    lia.
  - (* the same year, an earlier month *)
    unfold day_offset. rewrite Hy in *. rewrite Hrow2 in *.
    injection Hrow1 as <-.
    apply array_get_nth in Hlen1. destruct Hlen1 as [_ Hnth1].
    assert (Hk : (Z.to_nat (month d1 - 1) < Z.to_nat (month d2 - 1))%nat)
      by lia.
    pose proof (sumZ_firstn_lt _ _ _ _ Hpos1 Hnth1 Hk). lia.
  - (* the same month, an earlier day *)
    unfold day_offset. rewrite Hy, Hm. lia.
Qed.

(** ** Construction *)

(** C9. The constructor throws the plain [Error] exactly when the year,
    the month or the day is missing or zero; that error is raised at
    construction and is not the range error of the conversion.  Three
    non-zero components always give the date with these fields, whatever
    their values: nothing is validated at construction. *)
Theorem constructor_required_components (y m d : option Z) :
  ((y = None \/ y = Some 0 \/ m = None \/ m = Some 0
    \/ d = None \/ d = Some 0)
   /\ constructor y m d = Throw (Error "Year, month, and day are required"))
  \/
  (exists y' m' d',
      y = Some y' /\ m = Some m' /\ d = Some d'
      /\ y' <> 0 /\ m' <> 0 /\ d' <> 0
      /\ constructor y m d = Return (mk y' m' d')).
Proof.
  unfold constructor.
  destruct y as [y'|]; [|left; split; [tauto | reflexivity]].
  destruct (Z.eq_dec y' 0) as [->|Hy];
    [left; split; [tauto | reflexivity]|].
  destruct m as [m'|];
    [|left; split; [tauto | cbn [falsy]; now rewrite orb_true_r]].
  destruct (Z.eq_dec m' 0) as [->|Hm];
    [left; split; [tauto | cbn [falsy]; now rewrite orb_true_r]|].
  destruct d as [d'|];
    [|left; split; [tauto | cbn [falsy]; now rewrite orb_true_r]].
  destruct (Z.eq_dec d' 0) as [->|Hd];
    [left; split; [tauto | cbn [falsy]; now rewrite orb_true_r]|].
  right. exists y', m', d'. repeat split; try assumption.
  cbn [falsy field].
  apply Z.eqb_neq in Hy, Hm, Hd. now rewrite Hy, Hm, Hd.
Qed.

(** ** From a BS date to an AD date *)

(** C4. [toAD] throws [BSDateOutOfRangeError] exactly on the dates that
    are not valid (year not a key of the table, month outside 1..12 or day
    outside 1..length of the month), with a message that carries the
    supported year bounds 2000-2090; on every valid date it returns a
    date. *)
Theorem toAD_throws_iff_invalid (d : t) :
  (valid d /\ exists adDate, toAD d = Return adDate)
  \/
  (~ valid d
   /\ toAD d
      = Throw (BSDateOutOfRangeError
                 ("Year " ++ number_toString (year d)
                    ++ " is out of valid range (2000-2090)"))).
Proof.
  unfold toAD, validateBSDate.
  destruct (validDate d) eqn:Hv.
  - left. split; [now apply validDate_valid|].
    destruct (bsToJulianDays_spec d Hv) as (j & Hj & _).
    cbn [negb bind]. rewrite Hj. cbn [bind]. now eexists.
  - right. split; [now apply validDate_invalid|].
    cbn [negb bind]. now rewrite range_message_bounds.
Qed.

(** C7. The anchor points: BS 2000-01-01 converts to the AD date
    1943-04-14 and BS 2082-05-25 to the AD date 2025-09-10, both at
    UTC midnight.  The epoch Julian day is 2430828.5, and the Julian day
    that [toAD] converts is the epoch plus the month lengths of the table
    accumulated up to the date. *)
Theorem toAD_anchor_points :
  (exists adDate,
      toAD (mk 2000 1 1) = Return adDate
      /\ JSDate.parse 1943 4 14 = Some adDate)
  /\
  (exists adDate,
      toAD (mk 2082 5 25) = Return adDate
      /\ JSDate.parse 2025 9 10 = Some adDate)
  /\
  (Config.epochJulianDays == 24308285 # 10)%Q
  /\
  (forall d, validDate d = true ->
     exists julianDays,
       bsToJulianDays d = Return julianDays
       /\ (julianDays == Config.epochJulianDays + inject_Z (day_offset d))%Q
       /\ toAD d = Return (Julian.toDate julianDays)).
Proof.
  split; [|split; [|split]].
  - exists (-843177600000). split; vm_compute; reflexivity.
  - exists 1757462400000. split; vm_compute; reflexivity.
  - reflexivity.
  - intros d Hv. destruct (bsToJulianDays_spec d Hv) as (j & Hj & Heq).
    exists j. repeat split; try assumption.
    unfold toAD, validateBSDate. rewrite Hv. cbn [negb bind].
    now rewrite Hj.
Qed.

(** C8. [bsToJulianDays] is strictly increasing: of two valid dates, the
    one that is smaller in the lexicographic order of (year, month, day)
    has the smaller Julian day. *)
Theorem bsToJulianDays_strictly_monotonic (d1 d2 : t) :
  validDate d1 = true -> validDate d2 = true -> lex_lt d1 d2 ->
  exists j1 j2,
    bsToJulianDays d1 = Return j1 /\ bsToJulianDays d2 = Return j2
    /\ (j1 < j2)%Q.
Proof.
  intros Hv1 Hv2 Hlt.
  destruct (bsToJulianDays_spec d1 Hv1) as (j1 & Hj1 & He1).
  destruct (bsToJulianDays_spec d2 Hv2) as (j2 & Hj2 & He2).
  exists j1, j2. repeat split; try assumption.
  rewrite He1, He2.
  pose proof (day_offset_lt d1 d2 Hv1 Hv2 Hlt) as Hoff.
  rewrite Zlt_Qlt in Hoff. lra.
Qed.

Lemma bsToJulianDays_strictly_monotonic_witness :
  exists j1 j2,
    bsToJulianDays (mk 2081 12 30) = Return j1
    /\ bsToJulianDays (mk 2082 1 1) = Return j2
    /\ (j1 < j2)%Q.
Proof.
  apply (bsToJulianDays_strictly_monotonic (mk 2081 12 30) (mk 2082 1 1)).
  - vm_compute. reflexivity.
  - vm_compute. reflexivity.
  - unfold lex_lt. simpl. lia.
Defined.

(** ** From a Julian day to a BS date *)

(** More days than the remaining table years hold: the scan walks off the
    table and the lookup of the missing year fails. *)
Lemma year_scan_overflow (n fuel : nat) (y : Z) (r : Q) :
  2000 <= y -> y + Z.of_nat n = 2091 -> (n < fuel)%nat ->
  (inject_Z (year_days n y) < r)%Q ->
  year_scan fuel y r = Throw TypeError.
Proof.
  revert fuel y r. induction n as [|n IH]; intros fuel y r Hlo Hhi Hfuel Hr.
  - destruct fuel as [|fuel]; [lia|]. cbn [year_scan].
    now rewrite table_get_None by lia.
  - destruct fuel as [|fuel]; [lia|]. cbn [year_scan].
    assert (Hy : 2000 <= y <= 2090) by lia.
    destruct (table_get_in_range y Hy) as [row Hrow]. rewrite Hrow.
    cbn [year_days] in Hr. unfold year_total in Hr. rewrite Hrow in Hr.
    rewrite inject_Z_plus in Hr. rewrite reduce_sum_sumZ.
    assert (Hrest : 0 <= year_days n (y + 1))
      by (apply year_days_nonneg; lia).
    rewrite Zle_Qle in Hrest.
    assert (Hgt : Qgtb r (inject_Z (sumZ row)) = true)
      by (apply Qgtb_true; change (inject_Z 0) with 0%Q in Hrest; lra).
    rewrite Hgt. apply IH; [lia | lia | lia | lra].
Qed.

(** No more days than the remaining table years hold: the scan stops at a
    year of the table. *)
Lemma year_scan_inside (n fuel : nat) (y : Z) (r : Q) :
  2000 <= y -> y + Z.of_nat n = 2091 -> (1 <= n)%nat -> (n < fuel)%nat ->
  (r <= inject_Z (year_days n y))%Q ->
  exists y' r',
    year_scan fuel y r = Return (y', r')
    /\ y <= y' <= 2090
    /\ ((0 <= r)%Q -> (0 <= r')%Q)
    /\ (r' <= inject_Z (year_total y'))%Q.
Proof.
  revert fuel y r. induction n as [|n IH];
    intros fuel y r Hlo Hhi Hn Hfuel Hr; [lia|].
  destruct fuel as [|fuel]; [lia|]. cbn [year_scan].
  assert (Hy : 2000 <= y <= 2090) by lia.
  destruct (table_get_in_range y Hy) as [row Hrow]. rewrite Hrow.
  cbn [year_days] in Hr. rewrite inject_Z_plus in Hr.
  assert (Htot : year_total y = sumZ row)
    by (unfold year_total; now rewrite Hrow).
  rewrite reduce_sum_sumZ.
  destruct (Qgtb r (inject_Z (sumZ row))) eqn:Hcmp.
  - apply Qgtb_true in Hcmp. rewrite Htot in Hr.
    destruct n as [|n].
    + cbn [year_days] in Hr. change (inject_Z 0) with 0%Q in Hr. lra.
    + destruct (IH fuel (y + 1) (r - inject_Z (sumZ row))%Q)
        as (y' & r' & Hscan & Hy' & Hpos & Hle); [lia | lia | lia | lia | lra |].
      exists y', r'. repeat split; try assumption; try lia.
      intros _. apply Hpos. lra.
  - apply Qgtb_false in Hcmp.
    exists y, r. repeat split; try lia; [tauto | now rewrite Htot].
Qed.

(** The month scan of a table year stops by the thirteenth month. *)
Lemma month_scan_total (n fuel : nat) (y month : Z) (row : list Z) (r : Q) :
  table_get y = Some row ->
  1 <= month -> month - 1 + Z.of_nat n = 12 -> (n < fuel)%nat ->
  exists month' r',
    month_scan fuel y month r = Return (month', r')
    /\ month <= month' <= 13
    /\ ((0 <= r)%Q -> (0 <= r')%Q).
Proof.
  intro Hrow. destruct (table_get_Some _ _ Hrow) as (_ & Hlen & Hrowpos).
  revert fuel month r. induction n as [|n IH];
    intros fuel month r Hlo Hhi Hfuel;
    (destruct fuel as [|fuel]; [lia|]); cbn [month_scan]; rewrite Hrow.
  - rewrite (proj2 (array_get_row row (month - 1) Hlen)) by lia.
    exists month, r. repeat split; try lia. tauto.
  - destruct (proj1 (array_get_row row (month - 1) Hlen)) as [len Hget];
      [lia|]. rewrite Hget.
    destruct (Qgtb r (inject_Z len)) eqn:Hcmp.
    + apply Qgtb_true in Hcmp.
      destruct (IH fuel (month + 1) (r - inject_Z len)%Q)
        as (m' & r' & Hscan & Hm' & Hpos); [lia | lia | lia |].
      exists m', r'. repeat split; try assumption; try lia.
      intros _. apply Hpos.
      apply array_get_nth in Hget. destruct Hget as [_ Hnth].
      apply nth_error_In in Hnth.
      pose proof (proj1 (Forall_forall _ _) Hrowpos _ Hnth) as Hlenpos.
      lra.
    + exists month, r. repeat split; try lia. tauto.
Qed.

(** Within the days of the table, [julianDaysToBS] returns a year of
    the table, a month from 1, and a day from 1 when the Julian day is not
    before the epoch. *)
Lemma julianDaysToBS_inside (jd : Q) :
  (jd - Config.epochJulianDays <= inject_Z table_days)%Q ->
  exists y m d,
    julianDaysToBS jd = Return (y, m, d)
    /\ 2000 <= y <= 2090 /\ 1 <= m <= 13
    /\ ((0 <= jd - Config.epochJulianDays)%Q -> 1 <= d).
Proof.
  intro Hr. unfold julianDaysToBS. cbn [Config.epochBS].
  rewrite <- year_days_table in Hr.
  destruct (year_scan_inside 91 year_fuel 2000 _ ltac:(lia) ltac:(lia)
              ltac:(lia) ltac:(vm_compute; lia) Hr)
    as (y & r & Hscan & Hy & Hpos & _).
  rewrite Hscan. cbn [bind].
  destruct (table_get_in_range y Hy) as [row Hrow].
  destruct (month_scan_total 12 month_fuel y 1 row r Hrow ltac:(lia)
              ltac:(lia) ltac:(vm_compute; lia))
    as (m & r' & Hmscan & Hm & Hpos').
  rewrite Hmscan. cbn [bind].
  exists y, m, (Qceiling (r' + 1)). repeat split; try lia.
  intro H0. specialize (Hpos' (Hpos H0)).
  assert (H1 : (inject_Z 1 <= r' + 1)%Q)
    by (change (inject_Z 1) with 1%Q; lra).
  apply Qceiling_resp_le in H1. now rewrite Qceiling_Z in H1.
Qed.

(** The loops of [julianDaysToBS] never exhaust their fuel. *)
Lemma julianDaysToBS_total (jd : Q) : julianDaysToBS jd <> OutOfFuel.
Proof.
  destruct (Qlt_le_dec (inject_Z table_days) (jd - Config.epochJulianDays))
    as [Hgt | Hle].
  - unfold julianDaysToBS. cbn [Config.epochBS].
    rewrite <- year_days_table in Hgt.
    rewrite (year_scan_overflow 91 year_fuel 2000 _ ltac:(lia) ltac:(lia)
               ltac:(vm_compute; lia) Hgt).
    discriminate.
  - destruct (julianDaysToBS_inside jd Hle) as (y & m & d & H & _).
    rewrite H. discriminate.
Qed.

(** C5, as the code has it.  A Julian day more than the days of the whole
    table after the epoch walks the year scan past the last key, 2090;
    the lookup of the missing year then throws the host's [TypeError].
    The scan ends there: it does not run forever. *)
Theorem julianDaysToBS_past_table (jd : Q) :
  (inject_Z table_days < jd - Config.epochJulianDays)%Q ->
  julianDaysToBS jd = Throw TypeError.
Proof.
  intro Hgt. unfold julianDaysToBS. cbn [Config.epochBS].
  rewrite <- year_days_table in Hgt.
  now rewrite (year_scan_overflow 91 year_fuel 2000 _ ltac:(lia) ltac:(lia)
                 ltac:(vm_compute; lia) Hgt).
Qed.

Lemma julianDaysToBS_past_table_witness :
  julianDaysToBS (24640675 # 10) = Throw TypeError.
Proof.
  apply (julianDaysToBS_past_table (24640675 # 10)).
  vm_compute. reflexivity.
Defined.

(** The error of a Julian day past the table is not the range error. *)
Lemma julianDaysToBS_past_table_not_range_error :
  julianDaysToBS (24640675 # 10) = Throw TypeError
  /\ (inject_Z table_days < (24640675 # 10) - Config.epochJulianDays)%Q
  /\ forall message,
       julianDaysToBS (24640675 # 10)
       <> Throw (BSDateOutOfRangeError message).
Proof.
  assert (H : julianDaysToBS (24640675 # 10) = Throw TypeError)
    by (vm_compute; reflexivity).
  split; [exact H|]. split; [vm_compute; reflexivity|].
  intros message. rewrite H. discriminate.
Qed.

(** ** From an AD date to a BS date *)

Lemma toFixed6_le (x y : Q) :
  (x <= y)%Q -> (Julian.toFixed6 x <= Julian.toFixed6 y)%Q.
Proof.
  intro H. unfold Julian.toFixed6, Qle. cbn [Qnum Qden].
  apply Z.mul_le_mono_nonneg_r; [lia|].
  apply Qfloor_resp_le.
  change (inject_Z 1000000) with (1000000 # 1)%Q. lra.
Qed.

Lemma julian_le (t1 t2 : Z) :
  t1 <= t2 -> (Julian.julian t1 <= Julian.julian t2)%Q.
Proof.
  intro H. unfold Julian.julian. apply toFixed6_le.
  unfold Qdiv. change (/ inject_Z Julian.DAY)%Q with (1 # 86400000)%Q.
  rewrite Zle_Qle in H. lra.
Qed.

(** On a whole day the six decimals change nothing: the Julian day of
    UTC midnight, [n] days from the Unix epoch, is [n + 2440587.5]. *)
Lemma julian_midnight (n : Z) :
  (Julian.julian (n * Julian.DAY)
   == inject_Z n + Julian.UNIX_EPOCH_JULIAN_DATE)%Q.
Proof.
  unfold Julian.julian, Julian.toFixed6.
  assert (E : ((inject_Z (n * Julian.DAY) / inject_Z Julian.DAY
                + Julian.UNIX_EPOCH_JULIAN_DATE) * inject_Z 1000000 + (1 # 2)
               == inject_Z (2 * (n * 1000000 + 2440587500000) + 1) / 2)%Q).
  { repeat (rewrite inject_Z_plus || rewrite inject_Z_mult).
    unfold Julian.UNIX_EPOCH_JULIAN_DATE, Julian.DAY.
    change (inject_Z 86400000) with (86400000 # 1)%Q.
    change (inject_Z 1000000) with (1000000 # 1)%Q.
    change (inject_Z 2440587500000) with (2440587500000 # 1)%Q.
    change (inject_Z 2) with 2%Q. change (inject_Z 1) with 1%Q.
    unfold Qdiv. change (/ (86400000 # 1))%Q with (1 # 86400000)%Q.
    change (/ 2)%Q with (1 # 2)%Q. ring. }
  rewrite (Qfloor_comp _ _ E).
  change 2%Q with (inject_Z 2). rewrite <- Zdiv_Qdiv.
  replace ((2 * (n * 1000000 + 2440587500000) + 1) / 2)
    with (n * 1000000 + 2440587500000)
    by (apply Z.div_unique with (r := 1); lia).
  unfold Qeq, Julian.UNIX_EPOCH_JULIAN_DATE. cbn [Qnum Qden Qplus inject_Z].
  lia.
Qed.

Lemma julian_epochADStart :
  (Julian.julian Config.epochADStart == Config.epochJulianDays)%Q.
Proof. vm_compute. reflexivity. Qed.

Lemma julian_epochADEnd :
  (Julian.julian Config.epochADEnd
   == Config.epochJulianDays + inject_Z (table_days - 1))%Q.
Proof. vm_compute. reflexivity. Qed.

(** Inside the guard of [toBS], [fromAD] returns a date. *)
Lemma fromAD_in_range (adDate : Z) :
  Config.epochADStart <= adDate <= Config.epochADEnd ->
  exists y m d,
    fromAD adDate = Return (mk y m d)
    /\ 2000 <= y <= 2090 /\ 1 <= m <= 13 /\ 1 <= d.
Proof.
  intros [Hlo Hhi].
  pose proof (julian_le _ _ Hlo) as Hjlo.
  pose proof (julian_le _ _ Hhi) as Hjhi.
  rewrite julian_epochADStart in Hjlo. rewrite julian_epochADEnd in Hjhi.
  assert (Hin : (Julian.julian adDate - Config.epochJulianDays
                 <= inject_Z table_days)%Q).
  { rewrite table_days_value in *.
    change (inject_Z (33238 - 1)) with (33237 # 1)%Q in Hjhi.
    change (inject_Z 33238) with (33238 # 1)%Q. lra. }
  destruct (julianDaysToBS_inside _ Hin) as (y & m & d & Hbs & Hy & Hm & Hd).
  assert (H0 : (0 <= Julian.julian adDate - Config.epochJulianDays)%Q) by lra.
  specialize (Hd H0).
  exists y, m, d. repeat split; try lia.
  unfold fromAD. rewrite Hbs. cbn [bind]. unfold constructor.
  cbn [falsy field].
  assert (Ey : (y =? 0) = false) by lia.
  assert (Em : (m =? 0) = false) by lia.
  assert (Ed : (d =? 0) = false) by lia.
  now rewrite Ey, Em, Ed.
Qed.

(** C6. [toBS] throws [DateOutOfRangeError] on every instant before
    1943-04-14 or after 2034-04-13 and returns a BS date on every instant
    from the one to the other; the AD dates 1942-06-25 and 2035-06-25 are
    refused, and the AD date 1999-06-25 converts to BS 2056-03-11. *)
Theorem toBS_range_guard :
  (forall this : Z,
      (Config.epochADStart <= this <= Config.epochADEnd
       /\ exists d, Date.toBS this = Return d)
      \/
      ((this < Config.epochADStart \/ Config.epochADEnd < this)
       /\ Date.toBS this = Throw (DateOutOfRangeError "Date is out of range")))
  /\ JSDate.parse 1943 4 14 = Some Config.epochADStart
  /\ JSDate.parse 2034 4 13 = Some Config.epochADEnd
  /\ (exists adDate,
         JSDate.parse 1942 6 25 = Some adDate
         /\ Date.toBS adDate
            = Throw (DateOutOfRangeError "Date is out of range"))
  /\ (exists adDate,
         JSDate.parse 2035 6 25 = Some adDate
         /\ Date.toBS adDate
            = Throw (DateOutOfRangeError "Date is out of range"))
  /\ (exists adDate,
         JSDate.parse 1999 6 25 = Some adDate
         /\ Date.toBS adDate = Return (mk 2056 3 11)).
Proof.
  split; [|repeat split].
  - intro this. unfold Date.toBS.
    destruct (this <? Config.epochADStart) eqn:E1; [right; split; [lia|reflexivity]|].
    rewrite Z.gtb_ltb.
    destruct (Config.epochADEnd <? this) eqn:E2; [right; split; [lia|reflexivity]|].
    left. assert (Hin : Config.epochADStart <= this <= Config.epochADEnd) by lia.
    split; [exact Hin|].
    destruct (fromAD_in_range this Hin) as (y & m & d & H & _).
    cbn [orb]. rewrite H. now eexists.
  - exists (-868492800000). split; vm_compute; reflexivity.
  - exists 2066342400000. split; vm_compute; reflexivity.
  - exists 930268800000. split; vm_compute; reflexivity.
Qed.

(** The repository's test builds 1999-06-25 in local time.  Local
    midnight in a zone 5:45 ahead of UTC still gives BS 2056-03-11; local
    midnight in a zone four hours behind UTC gives the day after. *)
Example toBS_local_midnight_zones :
  Date.toBS (930268800000 - 20700000) = Return (mk 2056 3 11)
  /\ Date.toBS (930268800000 + 14400000) = Return (mk 2056 3 12).
Proof. split; vm_compute; reflexivity. Qed.

(** ** The first day of a month *)

(** C1, at BS 2000-02-01.  The date is valid and thirty days after the
    epoch; [julianDaysToBS] maps its Julian day to the thirty-first
    day of the first month, which has thirty days. *)
Theorem bs_round_trip_first_of_month :
  validDate (mk 2000 2 1) = true
  /\ bsToJulianDays (mk 2000 2 1) = Return (24308585 # 10)
  /\ julianDaysToBS (24308585 # 10) = Return (2000, 1, 31)
  /\ validDate (mk 2000 1 31) = false.
Proof. repeat split; vm_compute; reflexivity. Qed.

(** C2, at the AD date 1943-05-14.  It lies inside the supported range;
    [toBS] gives BS 2000-01-31, which [toAD] refuses. *)
Theorem ad_round_trip_first_of_month :
  JSDate.parse 1943 5 14 = Some (-840585600000)
  /\ Config.epochADStart <= -840585600000 <= Config.epochADEnd
  /\ Date.toBS (-840585600000) = Return (mk 2000 1 31)
  /\ toAD (mk 2000 1 31)
     = Throw (BSDateOutOfRangeError
                "Year 2000 is out of valid range (2000-2090)").
Proof. repeat split; vm_compute; try reflexivity; discriminate. Qed.

(** C3, at the two ties.  Thirty days after the epoch is exactly the
    length of the first month of 2000: the month scan stays in month 1
    and the day is 31, one past the month.  365 days after the epoch is
    exactly the length of the year 2000: the year scan stays in 2000, the
    month scan stops in month 12 with its 31 days left, and the day is
    32. *)
Theorem julianDaysToBS_tie_day_past_month :
  (table_get 2000 = Some [30; 32; 31; 32; 31; 30; 30; 30; 29; 30; 29; 31])
  /\ year_total 2000 = 365
  /\ (((24308285 # 10) + inject_Z 30)%Q == (24308585 # 10))%Q
  /\ julianDaysToBS (24308585 # 10) = Return (2000, 1, 31)
  /\ (((24308285 # 10) + inject_Z 365)%Q == (24311935 # 10))%Q
  /\ julianDaysToBS (24311935 # 10) = Return (2000, 12, 32).
Proof. repeat split; vm_compute; reflexivity. Qed.

(** *** Where the round trip holds *)

(** The year scan from [y] over [n] whole years and [k] further days
    stops [n] years on with [k] days left, when the further days are
    positive or no year is passed. *)
Lemma year_scan_exact (n fuel : nat) (y k : Z) (r : Q) :
  2000 <= y -> y + Z.of_nat n <= 2090 -> (n < fuel)%nat ->
  (r == inject_Z (year_days n y + k))%Q ->
  n = O \/ 0 < k -> k <= year_total (y + Z.of_nat n) ->
  exists r',
    year_scan fuel y r = Return (y + Z.of_nat n, r')
    /\ (r' == inject_Z k)%Q.
Proof.
  revert fuel y r. induction n as [|n IH];
    intros fuel y r Hlo Hhi Hfuel Hr Hk Hle;
    (destruct fuel as [|fuel]; [lia|]); cbn [year_scan];
    assert (Hy : 2000 <= y <= 2090) by lia;
    destruct (table_get_in_range y Hy) as [row Hrow]; rewrite Hrow;
    rewrite reduce_sum_sumZ;
    assert (Htot : year_total y = sumZ row)
      by (unfold year_total; now rewrite Hrow).
  - replace (y + Z.of_nat 0) with y in * by lia.
    cbn [year_days] in Hr. rewrite Z.add_0_l in Hr.
    rewrite Htot, Zle_Qle in Hle.
    assert (Hcmp : Qgtb r (inject_Z (sumZ row)) = false)
      by (apply Qgtb_false; lra).
    rewrite Hcmp. now exists r.
  - cbn [year_days] in Hr. rewrite Htot, !inject_Z_plus in Hr.
    assert (Hk' : 0 < k) by (destruct Hk; [discriminate | assumption]).
    assert (Hrest : 0 <= year_days n (y + 1))
      by (apply year_days_nonneg; lia).
    rewrite Zlt_Qlt in Hk'. rewrite Zle_Qle in Hrest.
    change (inject_Z 0) with 0%Q in Hk', Hrest.
    assert (Hcmp : Qgtb r (inject_Z (sumZ row)) = true)
      by (apply Qgtb_true; lra).
    rewrite Hcmp.
    replace (y + Z.of_nat (S n)) with (y + 1 + Z.of_nat n) in * by lia.
    apply IH; try lia.
    rewrite inject_Z_plus. lra.
Qed.

Lemma skipn_nth_cons (l : list Z) (i : nat) (x : Z) :
  nth_error l i = Some x -> skipn i l = x :: skipn (S i) l.
Proof.
  revert i. induction l as [|a l IH]; intros i H.
  - destruct i; discriminate.
  - destruct i as [|i]; cbn [nth_error] in H.
    + now injection H as ->.
    + cbn [skipn]. now apply IH.
Qed.

(** The month scan from [month] over [n] whole months and [k] further
    days stops [n] months on with [k] days left, when the further days
    are positive or no month is passed. *)
Lemma month_scan_exact (n fuel : nat) (y month k len : Z) (row : list Z)
      (r : Q) :
  table_get y = Some row ->
  1 <= month -> (n < fuel)%nat ->
  (r == inject_Z
          (sumZ (firstn n (skipn (Z.to_nat (month - 1)) row)) + k))%Q ->
  n = O \/ 0 < k ->
  array_get row (month - 1 + Z.of_nat n) = Some len -> k <= len ->
  exists r',
    month_scan fuel y month r = Return (month + Z.of_nat n, r')
    /\ (r' == inject_Z k)%Q.
Proof.
  intro Hrow. destruct (table_get_Some _ _ Hrow) as (_ & Hlen & Hpos).
  revert fuel month r. induction n as [|n IH];
    intros fuel month r Hlo Hfuel Hr Hk Hget Hle;
    (destruct fuel as [|fuel]; [lia|]); cbn [month_scan]; rewrite Hrow.
  - replace (month - 1 + Z.of_nat 0) with (month - 1) in Hget by lia.
    replace (month + Z.of_nat 0) with month by lia.
    rewrite Hget. cbn [firstn] in Hr. rewrite sumZ_nil, Z.add_0_l in Hr.
    rewrite Zle_Qle in Hle.
    assert (Hcmp : Qgtb r (inject_Z len) = false)
      by (apply Qgtb_false; lra).
    rewrite Hcmp. now exists r.
  - assert (Hin : 0 <= month - 1 < 12).
    { apply array_get_nth in Hget. destruct Hget as [_ Hnth].
      assert (Hsome : nth_error row (Z.to_nat (month - 1 + Z.of_nat (S n)))
                      <> None) by congruence.
      apply nth_error_Some in Hsome. lia. }
    destruct (proj1 (array_get_row row (month - 1) Hlen) Hin) as [x Hx].
    rewrite Hx. pose proof Hx as Hx'.
    apply array_get_nth in Hx'. destruct Hx' as [_ Hnth].
    rewrite (skipn_nth_cons _ _ _ Hnth) in Hr. cbn [firstn] in Hr.
    rewrite sumZ_cons, !inject_Z_plus in Hr.
    assert (Hk' : 0 < k) by (destruct Hk; [discriminate | assumption]).
    assert (Hrest : 0 <= sumZ (firstn n (skipn (S (Z.to_nat (month - 1))) row)))
      by (apply sumZ_nonneg, Forall_firstn, Forall_skipn, Hpos).
    rewrite Zlt_Qlt in Hk'. rewrite Zle_Qle in Hrest.
    change (inject_Z 0) with 0%Q in Hk', Hrest.
    assert (Hcmp : Qgtb r (inject_Z x) = true) by (apply Qgtb_true; lra).
    rewrite Hcmp.
    replace (month + Z.of_nat (S n)) with (month + 1 + Z.of_nat n) by lia.
    apply IH; try lia.
    + replace (Z.to_nat (month + 1 - 1)) with (S (Z.to_nat (month - 1)))
        by lia.
      rewrite inject_Z_plus. lra.
    + now replace (month + 1 - 1 + Z.of_nat n)
        with (month - 1 + Z.of_nat (S n)) by lia.
Qed.

Lemma sumZ_firstn_last (l : list Z) (k : nat) (x : Z) :
  List.length l = S k -> nth_error l k = Some x ->
  sumZ l = sumZ (firstn k l) + x.
Proof.
  revert k. induction l as [|a l IH]; intros k Hlen Hnth; [discriminate|].
  destruct k as [|k]; cbn [nth_error firstn] in *.
  - injection Hnth as <-. destruct l; [|discriminate].
    rewrite sumZ_cons, sumZ_nil. lia.
  - rewrite !sumZ_cons. cbn [List.length] in Hlen.
    rewrite (IH k); [lia | lia | assumption].
Qed.

Lemma Qceiling_day (r : Q) (k : Z) :
  (r == inject_Z k)%Q -> Qceiling (r + 1) = k + 1.
Proof.
  intro H.
  assert (E : (r + 1 == inject_Z (k + 1))%Q)
    by (rewrite inject_Z_plus; change (inject_Z 1) with 1%Q; lra).
  rewrite (Qceiling_comp _ _ E). apply Qceiling_Z.
Qed.

(** The round trip gives the date back on every valid date that is not
    the first day of a month, and on the epoch. *)
Lemma round_trip_holds (d : t) :
  validDate d = true ->
  2 <= day d \/ (year d = 2000 /\ month d = 1) ->
  round_trip d = Return (year d, month d, day d).
Proof.
  intros Hv Hcase.
  destruct (day_offset_bounds d Hv) as [_ Hhi].
  destruct (bsToJulianDays_spec d Hv) as (j & Hj & Heq).
  apply validDate_valid in Hv.
  destruct Hv as (row & len & Hrow & Hm & Hlen & Hd).
  destruct (table_get_Some _ _ Hrow) as (Hy & _ & Hpos).
  pose proof (sumZ_nonneg _ (Forall_firstn _ (Z.to_nat (month d - 1)) _ Hpos))
    as Hpre.
  unfold round_trip. rewrite Hj. cbn [bind].
  unfold julianDaysToBS. cbn [Config.epochBS].
  unfold day_offset in Heq, Hhi. rewrite Hrow in Heq, Hhi.
  destruct (year_scan_exact (Z.to_nat (year d - 2000)) year_fuel 2000
              (sumZ (firstn (Z.to_nat (month d - 1)) row) + (day d - 1))
              (j - Config.epochJulianDays)%Q)
    as (r & Hscan & Hr).
  { lia. } { lia. } { vm_compute List.length. unfold year_fuel. cbn. lia. }
  { rewrite Heq, Z.add_assoc. lra. }
  { lia. }
  { replace (2000 + Z.of_nat (Z.to_nat (year d - 2000))) with (year d) by lia.
    lia. }
  replace (2000 + Z.of_nat (Z.to_nat (year d - 2000))) with (year d)
    in Hscan by lia.
  rewrite Hscan. cbn [bind].
  destruct (month_scan_exact (Z.to_nat (month d - 1)) month_fuel (year d) 1
              (day d - 1) len row r Hrow)
    as (r' & Hmscan & Hr').
  { lia. } { unfold month_fuel. lia. }
  { exact Hr. } { lia. }
  { now replace (1 - 1 + Z.of_nat (Z.to_nat (month d - 1)))
      with (month d - 1) by lia. }
  { lia. }
  replace (1 + Z.of_nat (Z.to_nat (month d - 1))) with (month d)
    in Hmscan by lia.
  rewrite Hmscan. cbn [bind].
  rewrite (Qceiling_day _ _ Hr').
  now replace (day d - 1 + 1) with (day d) by lia.
Qed.

Lemma sumZ_firstn_S (l : list Z) (k : nat) (x : Z) :
  nth_error l k = Some x -> sumZ (firstn (S k) l) = sumZ (firstn k l) + x.
Proof.
  revert k. induction l as [|a l IH]; intros k Hnth.
  - destruct k; discriminate.
  - destruct k as [|k]; cbn [nth_error] in Hnth.
    + injection Hnth as <-. cbn [firstn]. rewrite sumZ_cons, !sumZ_nil. lia.
    + change (firstn (S (S k)) (a :: l)) with (a :: firstn (S k) l).
      change (firstn (S k) (a :: l)) with (a :: firstn k l).
      rewrite !sumZ_cons, (IH k Hnth). lia.
Qed.

(** The first day of a later month of the year comes back as the day
    after the last day of the month before. *)
Lemma round_trip_first_of_month (d : t) :
  validDate d = true -> day d = 1 -> 2 <= month d ->
  exists row len,
    table_get (year d) = Some row
    /\ array_get row (month d - 2) = Some len
    /\ round_trip d = Return (year d, month d - 1, len + 1).
Proof.
  intros Hv Hday Hmonth.
  destruct (day_offset_bounds d Hv) as [_ Hhi].
  destruct (bsToJulianDays_spec d Hv) as (j & Hj & Heq).
  apply validDate_valid in Hv.
  destruct Hv as (row & len & Hrow & Hm & Hlen & Hd).
  destruct (table_get_Some _ _ Hrow) as (Hy & Hrowlen & Hpos).
  destruct (proj1 (array_get_row row (month d - 2) Hrowlen)) as [prev Hprev];
    [lia|].
  exists row, prev. repeat split; try assumption.
  pose proof Hprev as Hnth. apply array_get_nth in Hnth.
  destruct Hnth as [_ Hnth].
  pose proof (sumZ_firstn_S _ _ _ Hnth) as Hsum.
  replace (S (Z.to_nat (month d - 2))) with (Z.to_nat (month d - 1))
    in Hsum by lia.
  pose proof (sumZ_nonneg _ (Forall_firstn _ (Z.to_nat (month d - 2)) _ Hpos))
    as Hpre.
  assert (Hprevpos : 0 < prev)
    by (apply (proj1 (Forall_forall _ _) Hpos), (nth_error_In _ _ Hnth)).
  unfold round_trip. rewrite Hj. cbn [bind].
  unfold julianDaysToBS. cbn [Config.epochBS].
  unfold day_offset in Heq, Hhi. rewrite Hrow, Hday in Heq, Hhi.
  destruct (year_scan_exact (Z.to_nat (year d - 2000)) year_fuel 2000
              (sumZ (firstn (Z.to_nat (month d - 1)) row))
              (j - Config.epochJulianDays)%Q)
    as (r & Hscan & Hr).
  { lia. } { lia. } { unfold year_fuel. cbn. lia. }
  { rewrite Heq. replace (1 - 1) with 0 by lia. rewrite Z.add_0_r. lra. }
  { lia. }
  { replace (2000 + Z.of_nat (Z.to_nat (year d - 2000))) with (year d) by lia.
    lia. }
  replace (2000 + Z.of_nat (Z.to_nat (year d - 2000))) with (year d)
    in Hscan by lia.
  rewrite Hscan. cbn [bind].
  destruct (month_scan_exact (Z.to_nat (month d - 2)) month_fuel (year d) 1
              prev prev row r Hrow)
    as (r' & Hmscan & Hr').
  { lia. } { unfold month_fuel. lia. }
  { rewrite Hr, Hsum. reflexivity. } { lia. }
  { now replace (1 - 1 + Z.of_nat (Z.to_nat (month d - 2)))
      with (month d - 2) by lia. }
  { lia. }
  replace (1 + Z.of_nat (Z.to_nat (month d - 2))) with (month d - 1)
    in Hmscan by lia.
  rewrite Hmscan. cbn [bind].
  now rewrite (Qceiling_day _ _ Hr').
Qed.

(** The first day of a later year comes back as the day after the last
    day of the year before. *)
Lemma round_trip_first_of_year (d : t) :
  validDate d = true -> day d = 1 -> month d = 1 -> 2000 < year d ->
  exists row len,
    table_get (year d - 1) = Some row
    /\ array_get row 11 = Some len
    /\ round_trip d = Return (year d - 1, 12, len + 1).
Proof.
  intros Hv Hday Hmonth Hyear.
  destruct (bsToJulianDays_spec d Hv) as (j & Hj & Heq).
  apply validDate_valid in Hv.
  destruct Hv as (row & len & Hrow & Hm & Hlen & Hd).
  destruct (table_get_Some _ _ Hrow) as (Hy & _ & _).
  destruct (table_get_in_range (year d - 1)) as [prow Hprow]; [lia|].
  destruct (table_get_Some _ _ Hprow) as (_ & Hplen & Hppos).
  destruct (proj1 (array_get_row prow 11 Hplen)) as [last Hlast]; [lia|].
  exists prow, last. repeat split; try assumption.
  pose proof Hlast as Hnth. apply array_get_nth in Hnth.
  destruct Hnth as [_ Hnth]. change (Z.to_nat 11) with 11%nat in Hnth.
  pose proof (sumZ_firstn_last _ _ _ Hplen Hnth) as Hsum.
  assert (Hlastpos : 0 < last)
    by (apply (proj1 (Forall_forall _ _) Hppos), (nth_error_In _ _ Hnth)).
  pose proof (sumZ_nonneg _ (Forall_firstn _ 11 _ Hppos)) as Hpre.
  assert (Hptot : year_total (year d - 1) = sumZ prow)
    by (unfold year_total; now rewrite Hprow).
  unfold round_trip. rewrite Hj. cbn [bind].
  unfold julianDaysToBS. cbn [Config.epochBS].
  unfold day_offset in Heq. rewrite Hrow, Hday, Hmonth in Heq.
  change (Z.to_nat (1 - 1)) with O in Heq. cbn [firstn] in Heq.
  rewrite sumZ_nil in Heq.
  replace (Z.to_nat (year d - 2000))
    with (Z.to_nat (year d - 2001) + 1)%nat in Heq by lia.
  rewrite year_days_app in Heq. cbn [year_days] in Heq.
  replace (2000 + Z.of_nat (Z.to_nat (year d - 2001))) with (year d - 1)
    in Heq by lia.
  destruct (year_scan_exact (Z.to_nat (year d - 2001)) year_fuel 2000
              (year_total (year d - 1)) (j - Config.epochJulianDays)%Q)
    as (r & Hscan & Hr).
  { lia. } { lia. } { unfold year_fuel. cbn. lia. }
  { rewrite Heq.
    replace (year_days (Z.to_nat (year d - 2001)) 2000
             + (year_total (year d - 1) + 0) + 0 + (1 - 1))
      with (year_days (Z.to_nat (year d - 2001)) 2000
            + year_total (year d - 1)) by lia.
    lra. }
  { right. lia. }
  { replace (2000 + Z.of_nat (Z.to_nat (year d - 2001))) with (year d - 1)
      by lia. lia. }
  replace (2000 + Z.of_nat (Z.to_nat (year d - 2001))) with (year d - 1)
    in Hscan by lia.
  rewrite Hscan. cbn [bind].
  destruct (month_scan_exact 11 month_fuel (year d - 1) 1 last last prow r
              Hprow)
    as (r' & Hmscan & Hr').
  { lia. } { unfold month_fuel. lia. }
  { rewrite Hr, Hptot, Hsum. reflexivity. } { lia. }
  { exact Hlast. } { lia. }
  change (1 + Z.of_nat 11) with 12 in Hmscan.
  rewrite Hmscan. cbn [bind].
  now rewrite (Qceiling_day _ _ Hr').
Qed.

(** ** Presentation *)

Lemma monthName_in_range (romanized : bool) (d : t) :
  1 <= month d <= 12 -> exists name, monthName romanized d = Some name.
Proof.
  intro Hm. unfold monthName.
  assert (Hcases : month d = 1 \/ month d = 2 \/ month d = 3 \/ month d = 4
                   \/ month d = 5 \/ month d = 6 \/ month d = 7
                   \/ month d = 8 \/ month d = 9 \/ month d = 10
                   \/ month d = 11 \/ month d = 12) by lia.
  destruct romanized;
    repeat (destruct Hcases as [-> | Hcases]; [eexists; reflexivity|]);
    rewrite Hcases; eexists; reflexivity.
Qed.

Lemma monthName_out_of_range (romanized : bool) (d : t) :
  ~ 1 <= month d <= 12 -> monthName romanized d = None.
Proof.
  intro Hm. unfold monthName, values_at, keys_at, array_get.
  destruct romanized;
    (destruct (month d - 1 <? 0) eqn:E; [reflexivity|];
     apply nth_error_None; cbn; lia).
Qed.

(** C10, at BS 2000-13-25.  The date is not valid; [monthName] gives
    [undefined] for it, in both forms, which is not a string, and
    [toNepali] prints that [undefined].  With both options set [dayName]
    throws the plain [Error] of the option check, not the range error. *)
Lemma presentation_invalid_month_undefined :
  validDate (mk 2000 13 25) = false
  /\ monthName false (mk 2000 13 25) = None
  /\ monthName true (mk 2000 13 25) = None
  /\ ~ (exists name, monthName false (mk 2000 13 25) = Some name)
  /\ toNepali (mk 2000 13 25) = "undefined २५, २०००"%string
  /\ dayName 0 true true (mk 2000 13 25)
     = Throw (Error "You must provide exactly one of :romanized or :localized").
Proof.
  repeat split; try (vm_compute; reflexivity).
  intros [name H]. vm_compute in H. discriminate.
Qed.

(** C10, as the code has it.  On a date that is not valid, [dayName]
    throws [BSDateOutOfRangeError], unless both options are set, when the
    option check throws the plain [Error] first.  [monthName] and
    [toNepali] validate nothing and throw nothing: [monthName] gives the
    name of the month when the month is in 1..12 and [undefined]
    otherwise, and [toNepali] gives a string, which starts with the name
    of the month or, for a month outside 1..12, with [undefined]. *)
Theorem presentation_on_invalid_date
        (d : t) (localTZA : Z) (romanized localized : bool) :
  validDate d = false ->
  dayName localTZA romanized localized d
  = (if romanized && localized
     then Throw (Error "You must provide exactly one of :romanized or :localized")
     else Throw (BSDateOutOfRangeError
                   ("Year " ++ number_toString (year d)
                      ++ " is out of valid range (2000-2090)")))
  /\ ((1 <= month d <= 12
       /\ exists name rest,
            monthName romanized d = Some name
            /\ monthName false d = Some rest
            /\ toNepali d
               = (rest ++ " " ++ Number.toNepali (day d) ++ ", "
                    ++ Number.toNepali (year d))%string)
      \/
      (~ 1 <= month d <= 12
       /\ monthName romanized d = None
       /\ toNepali d
          = ("undefined " ++ Number.toNepali (day d) ++ ", "
               ++ Number.toNepali (year d))%string)).
Proof.
  intro Hv. split.
  - unfold dayName. destruct (romanized && localized); [reflexivity|].
    unfold toAD, validateBSDate. rewrite Hv. cbn [negb bind].
    now rewrite range_message_bounds.
  - destruct (Z_le_dec 1 (month d)) as [H1|H1];
      [destruct (Z_le_dec (month d) 12) as [H2|H2]|].
    + left. split; [lia|].
      destruct (monthName_in_range romanized d) as [name Hn]; [lia|].
      destruct (monthName_in_range false d) as [rest Hr]; [lia|].
      exists name, rest. repeat split; try assumption.
      unfold toNepali. now rewrite Hr.
    + right. split; [lia|]. split; [apply monthName_out_of_range; lia|].
      unfold toNepali. rewrite (monthName_out_of_range false d) by lia.
      reflexivity.
    + right. split; [lia|]. split; [apply monthName_out_of_range; lia|].
      unfold toNepali. rewrite (monthName_out_of_range false d) by lia.
      reflexivity.
Qed.

Lemma presentation_on_invalid_date_witness :
  dayName 0 false false (mk 2091 5 25)
  = Throw (BSDateOutOfRangeError
             "Year 2091 is out of valid range (2000-2090)")
  /\ exists name rest,
       monthName false (mk 2091 5 25) = Some name
       /\ monthName false (mk 2091 5 25) = Some rest
       /\ toNepali (mk 2091 5 25)
          = (rest ++ " " ++ Number.toNepali 25 ++ ", "
               ++ Number.toNepali 2091)%string.
Proof.
  destruct (presentation_on_invalid_date (mk 2091 5 25) 0 false false)
    as [Hday [[_ Hname] | [Hm _]]].
  - vm_compute. reflexivity.
  - split; [exact Hday | exact Hname].
  - exfalso. apply Hm. simpl. lia.
Defined.

(** * Further properties *)

(** ** The AD date of a valid BS date *)

Lemma Qtrunc_inject_Z (q : Q) (z : Z) : (q == inject_Z z)%Q -> Qtrunc q = z.
Proof.
  intro H. unfold Qtrunc. destruct (Qle_bool 0 q).
  - rewrite (Qfloor_comp _ _ H). apply Qfloor_Z.
  - rewrite (Qceiling_comp _ _ H). apply Qceiling_Z.
Qed.

Lemma toDate_whole_day (j : Q) (k : Z) :
  (j == Config.epochJulianDays + inject_Z k)%Q ->
  Julian.toDate j = Config.epochADStart + k * 86400000.
Proof.
  intro H. unfold Julian.toDate. apply Qtrunc_inject_Z.
  rewrite H, inject_Z_plus, inject_Z_mult.
  unfold Config.epochJulianDays, Julian.UNIX_EPOCH_JULIAN_DATE, Julian.DAY,
    Config.epochADStart.
  change (inject_Z 86400000) with (86400000 # 1)%Q.
  change (inject_Z (-843177600000)) with (-843177600000 # 1)%Q.
  ring.
Qed.

Lemma julian_whole_day (k : Z) :
  (Julian.julian (Config.epochADStart + k * 86400000)
   == Config.epochJulianDays + inject_Z k)%Q.
Proof.
  replace (Config.epochADStart + k * 86400000)
    with ((k - 9759) * Julian.DAY)
    by (unfold Config.epochADStart, Julian.DAY; lia).
  rewrite julian_midnight. unfold Zminus. rewrite inject_Z_plus.
  unfold Config.epochJulianDays, Julian.UNIX_EPOCH_JULIAN_DATE.
  change (inject_Z (- (9759))) with (-9759 # 1)%Q. ring.
Qed.

Lemma toAD_valid (d : t) :
  validDate d = true ->
  toAD d = Return (Config.epochADStart + day_offset d * 86400000).
Proof.
  intro Hv. destruct (bsToJulianDays_spec d Hv) as (j & Hj & Heq).
  unfold toAD, validateBSDate. rewrite Hv. cbn [negb bind].
  rewrite Hj. cbn [bind]. now rewrite (toDate_whole_day j _ Heq).
Qed.

Lemma day_offset_range (d : t) :
  validDate d = true -> 0 <= day_offset d <= table_days - 1.
Proof.
  intro Hv. destruct (day_offset_bounds d Hv) as [Hlo Hhi].
  apply validDate_valid in Hv.
  destruct Hv as (row & len & Hrow & _).
  destruct (table_get_Some _ _ Hrow) as (Hy & _ & _).
  assert (H0 : 0 <= year_days (Z.to_nat (year d - 2000)) 2000)
    by (apply year_days_nonneg; lia).
  assert (Hsplit : year_days 91 2000
                   = year_days (Z.to_nat (year d - 2000)) 2000
                     + (year_total (year d)
                        + year_days (Z.to_nat (2090 - year d)) (year d + 1))).
  { replace 91%nat
      with (Z.to_nat (year d - 2000) + S (Z.to_nat (2090 - year d)))%nat
      by lia.
    rewrite year_days_app. cbn [year_days].
    now replace (2000 + Z.of_nat (Z.to_nat (year d - 2000))) with (year d)
      by lia. }
  assert (Hrest : 0 <= year_days (Z.to_nat (2090 - year d)) (year d + 1))
    by (apply year_days_nonneg; lia).
  rewrite <- year_days_table. lia.
Qed.

Lemma toAD_range (d : t) :
  validDate d = true ->
  Config.epochADStart
  <= Config.epochADStart + day_offset d * 86400000
  <= Config.epochADEnd.
Proof.
  intro Hv. pose proof (day_offset_range d Hv) as Hr.
  rewrite table_days_value in Hr.
  unfold Config.epochADStart, Config.epochADEnd. lia.
Qed.

(** X1. On every valid date [toAD] returns UTC midnight of the day that
    lies, from 1943-04-14, as many days on as the whole years, the whole
    months and the days of the date before it hold; that day is never
    outside the range that [toBS] accepts. *)
Theorem toAD_time_value (d : t) :
  validDate d = true ->
  toAD d = Return (Config.epochADStart + day_offset d * 86400000)
  /\ Config.epochADStart
     <= Config.epochADStart + day_offset d * 86400000
     <= Config.epochADEnd.
Proof.
  intro Hv. split; [now apply toAD_valid | now apply toAD_range].
Qed.

Lemma toAD_time_value_witness :
  toAD (mk 2082 5 25)
  = Return (Config.epochADStart + day_offset (mk 2082 5 25) * 86400000)
  /\ Config.epochADStart
     <= Config.epochADStart + day_offset (mk 2082 5 25) * 86400000
     <= Config.epochADEnd.
Proof.
  apply (toAD_time_value (mk 2082 5 25)). vm_compute. reflexivity.
Defined.

Lemma Return_inj {A : Type} (a b : A) : Return a = Return b -> a = b.
Proof. intro H. now injection H. Qed.

Lemma lex_lt_total (d1 d2 : t) : d1 = d2 \/ lex_lt d1 d2 \/ lex_lt d2 d1.
Proof.
  destruct d1 as [y1 m1 a1], d2 as [y2 m2 a2]. unfold lex_lt. cbn [year month day].
  destruct (Z.eq_dec y1 y2) as [-> | Hy]; [|right; lia].
  destruct (Z.eq_dec m1 m2) as [-> | Hm]; [|right; lia].
  destruct (Z.eq_dec a1 a2) as [-> | Ha]; [now left | right; lia].
Qed.

(** X2. [toAD] is injective on valid dates: two valid BS dates with the
    same AD date are the same date. *)
Theorem toAD_injective (d1 d2 : t) :
  validDate d1 = true -> validDate d2 = true -> toAD d1 = toAD d2 -> d1 = d2.
Proof.
  intros Hv1 Hv2 Heq.
  rewrite (toAD_valid d1 Hv1), (toAD_valid d2 Hv2) in Heq.
  apply Return_inj in Heq.
  destruct (lex_lt_total d1 d2) as [H | [H | H]]; [exact H | |].
  - pose proof (day_offset_lt d1 d2 Hv1 Hv2 H). lia.
  - pose proof (day_offset_lt d2 d1 Hv2 Hv1 H). lia.
Qed.

Lemma toAD_injective_witness : mk 2082 5 25 = mk 2082 5 25.
Proof.
  apply (toAD_injective (mk 2082 5 25) (mk 2082 5 25));
    vm_compute; reflexivity.
Defined.

(** ** Round trips through the AD date *)

Lemma year_fuel_value : year_fuel = 92%nat.
Proof. reflexivity. Qed.

(** The Julian day of a valid date that is not the first day of a month,
    or is the epoch, converts to that date. *)
Lemma julianDaysToBS_of_offset (d : t) (j : Q) :
  validDate d = true ->
  2 <= day d \/ (year d = 2000 /\ month d = 1) ->
  (j == Config.epochJulianDays + inject_Z (day_offset d))%Q ->
  julianDaysToBS j = Return (year d, month d, day d).
Proof.
  intros Hv Hcase Heq.
  destruct (day_offset_bounds d Hv) as [_ Hhi].
  apply validDate_valid in Hv.
  destruct Hv as (row & len & Hrow & Hm & Hlen & Hd).
  destruct (table_get_Some _ _ Hrow) as (Hy & _ & Hpos).
  pose proof (sumZ_nonneg _ (Forall_firstn _ (Z.to_nat (month d - 1)) _ Hpos))
    as Hpre.
  unfold julianDaysToBS. cbn [Config.epochBS].
  unfold day_offset in Heq, Hhi. rewrite Hrow in Heq, Hhi.
  destruct (year_scan_exact (Z.to_nat (year d - 2000)) year_fuel 2000
              (sumZ (firstn (Z.to_nat (month d - 1)) row) + (day d - 1))
              (j - Config.epochJulianDays)%Q)
    as (r & Hscan & Hr).
  { lia. } { lia. } { rewrite year_fuel_value. lia. }
  { rewrite Heq, Z.add_assoc. lra. }
  { lia. }
  { replace (2000 + Z.of_nat (Z.to_nat (year d - 2000))) with (year d) by lia.
    lia. }
  replace (2000 + Z.of_nat (Z.to_nat (year d - 2000))) with (year d)
    in Hscan by lia.
  rewrite Hscan. cbn [bind].
  destruct (month_scan_exact (Z.to_nat (month d - 1)) month_fuel (year d) 1
              (day d - 1) len row r Hrow)
    as (r' & Hmscan & Hr').
  { lia. } { unfold month_fuel. lia. }
  { exact Hr. } { lia. }
  { now replace (1 - 1 + Z.of_nat (Z.to_nat (month d - 1)))
      with (month d - 1) by lia. }
  { lia. }
  replace (1 + Z.of_nat (Z.to_nat (month d - 1))) with (month d)
    in Hmscan by lia.
  rewrite Hmscan. cbn [bind].
  rewrite (Qceiling_day _ _ Hr').
  now replace (day d - 1 + 1) with (day d) by lia.
Qed.

Lemma constructor_nonzero (y m a : Z) :
  y <> 0 -> m <> 0 -> a <> 0 ->
  constructor (Some y) (Some m) (Some a) = Return (mk y m a).
Proof.
  intros Hy Hm Ha. unfold constructor. cbn [falsy field].
  apply Z.eqb_neq in Hy, Hm, Ha. now rewrite Hy, Hm, Ha.
Qed.

Lemma toBS_in_guard (adDate : Z) :
  Config.epochADStart <= adDate <= Config.epochADEnd ->
  Date.toBS adDate = fromAD adDate.
Proof.
  intro H. unfold Date.toBS. rewrite Z.gtb_ltb.
  destruct (adDate <? Config.epochADStart) eqn:E1; [lia|].
  destruct (Config.epochADEnd <? adDate) eqn:E2; [lia|]. reflexivity.
Qed.

(** X3. From BS to AD and back.  For every valid BS date that is not the
    first day of a month, and for the epoch, [toAD] returns an AD date
    and [toBS] of that AD date returns the BS date again. *)
Theorem toAD_then_toBS (d : t) :
  validDate d = true ->
  2 <= day d \/ (year d = 2000 /\ month d = 1) ->
  exists adDate, toAD d = Return adDate /\ Date.toBS adDate = Return d.
Proof.
  intros Hv Hcase.
  pose proof (toAD_valid d Hv) as HtoAD.
  pose proof (toAD_range d Hv) as Hrange.
  exists (Config.epochADStart + day_offset d * 86400000).
  split; [exact HtoAD|].
  rewrite (toBS_in_guard _ Hrange). unfold fromAD.
  rewrite (julianDaysToBS_of_offset d _ Hv Hcase (julian_whole_day _)).
  cbn [bind].
  apply validDate_valid in Hv.
  destruct Hv as (row & len & Hrow & Hm & Hlen & Hd).
  destruct (table_get_Some _ _ Hrow) as (Hy & _ & _).
  rewrite constructor_nonzero by lia. now destruct d.
Qed.

Lemma toAD_then_toBS_witness :
  exists adDate,
    toAD (mk 2082 5 25) = Return adDate
    /\ Date.toBS adDate = Return (mk 2082 5 25).
Proof.
  apply (toAD_then_toBS (mk 2082 5 25)).
  - vm_compute. reflexivity.
  - left. simpl. lia.
Defined.

(** What the year scan has passed and what it has left add up to what it
    was given, and it stops on a year of the table. *)
Lemma year_scan_decomp (fuel : nat) (y y' : Z) (r r' : Q) :
  year_scan fuel y r = Return (y', r') ->
  exists n row,
    y' = y + Z.of_nat n
    /\ table_get y' = Some row
    /\ (r == inject_Z (year_days n y) + r')%Q.
Proof.
  revert y r. induction fuel as [|fuel IH]; intros y r H; [discriminate|].
  cbn [year_scan] in H.
  destruct (table_get y) as [row|] eqn:Hrow; [|discriminate].
  destruct (Qgtb r (inject_Z (reduce_sum row))).
  - destruct (IH _ _ H) as (n & row' & Hy' & Hrow' & Hr).
    exists (S n), row'. repeat split; [lia | assumption |].
    cbn [year_days]. unfold year_total. rewrite Hrow, inject_Z_plus.
    rewrite reduce_sum_sumZ in Hr. lra.
  - apply Return_inj in H. injection H as <- <-.
    exists O, row. repeat split; [lia | assumption |].
    cbn [year_days]. change (inject_Z 0) with 0%Q. lra.
Qed.

(** The same for the month scan. *)
Lemma month_scan_decomp (fuel : nat) (y month month' : Z) (row : list Z)
      (r r' : Q) :
  table_get y = Some row -> 1 <= month ->
  month_scan fuel y month r = Return (month', r') ->
  exists n,
    month' = month + Z.of_nat n
    /\ (r == inject_Z (sumZ (firstn n (skipn (Z.to_nat (month - 1)) row)))
             + r')%Q.
Proof.
  intro Hrow. revert month r.
  induction fuel as [|fuel IH]; intros month r Hm H; [discriminate|].
  cbn [month_scan] in H. rewrite Hrow in H.
  destruct (array_get row (month - 1)) as [len|] eqn:Hlen.
  - destruct (Qgtb r (inject_Z len)).
    + assert (Hm1 : 1 <= month + 1) by lia.
      destruct (IH _ _ Hm1 H) as (n & Hm' & Hr).
      exists (S n). split; [lia|].
      apply array_get_nth in Hlen. destruct Hlen as [_ Hnth].
      rewrite (skipn_nth_cons _ _ _ Hnth). cbn [firstn].
      rewrite sumZ_cons, inject_Z_plus.
      replace (Z.to_nat (month + 1 - 1)) with (S (Z.to_nat (month - 1)))
        in Hr by lia.
      lra.
    + apply Return_inj in H. injection H as <- <-.
      exists O. split; [lia|]. cbn [firstn]. rewrite sumZ_nil.
      change (inject_Z 0) with 0%Q. lra.
  - apply Return_inj in H. injection H as <- <-.
    exists O. split; [lia|]. cbn [firstn]. rewrite sumZ_nil.
    change (inject_Z 0) with 0%Q. lra.
Qed.

(** Whatever [julianDaysToBS] returns for a whole number of days after
    the epoch lies that number of days after the epoch, valid or not. *)
Lemma julianDaysToBS_offset (j : Q) (k y m a : Z) :
  (j == Config.epochJulianDays + inject_Z k)%Q ->
  julianDaysToBS j = Return (y, m, a) ->
  day_offset (mk y m a) = k.
Proof.
  intros Hj H. unfold julianDaysToBS in H. cbn [Config.epochBS] in H.
  destruct (year_scan year_fuel 2000 (j - Config.epochJulianDays))
    as [[y0 r0]| |] eqn:Hys; try discriminate.
  cbn [bind] in H.
  destruct (month_scan month_fuel y0 1 r0) as [[m0 r1]| |] eqn:Hms;
    try discriminate.
  cbn [bind] in H. apply Return_inj in H.
  destruct (year_scan_decomp _ _ _ _ _ Hys) as (n & row & Hy0 & Hrow & Hr0).
  destruct (month_scan_decomp _ _ _ _ _ _ _ Hrow (Z.le_refl 1) Hms)
    as (n' & Hm0 & Hr1).
  change (Z.to_nat (1 - 1)) with O in Hr1. cbn [skipn] in Hr1.
  assert (Hr1' : (r1 == inject_Z (k - year_days n 2000 - sumZ (firstn n' row)))%Q).
  { unfold Zminus. rewrite !inject_Z_plus, !inject_Z_opp. lra. }
  injection H as <- <- <-.
  rewrite (Qceiling_day _ _ Hr1').
  unfold day_offset. cbn [year month day]. rewrite Hrow.
  replace (Z.to_nat (y0 - 2000)) with n by lia.
  replace (Z.to_nat (m0 - 1)) with n' by lia. lia.
Qed.

(** X4. From AD to BS and back.  For an AD date at UTC midnight, whenever
    [toBS] returns a BS date that is valid, [toAD] of that BS date
    returns the AD date again. *)
Theorem toBS_then_toAD (k : Z) (d : t) :
  Date.toBS (Config.epochADStart + k * 86400000) = Return d ->
  validDate d = true ->
  toAD d = Return (Config.epochADStart + k * 86400000).
Proof.
  intros HtoBS Hv. rewrite (toAD_valid d Hv). do 2 f_equal.
  unfold Date.toBS in HtoBS.
  destruct ((Config.epochADStart + k * 86400000 <? Config.epochADStart)
            || (Config.epochADStart + k * 86400000 >? Config.epochADEnd));
    [discriminate|].
  unfold fromAD in HtoBS.
  destruct (julianDaysToBS (Julian.julian (Config.epochADStart + k * 86400000)))
    as [[[y m] a]| |] eqn:Hbs; try discriminate.
  cbn [bind] in HtoBS.
  pose proof (julianDaysToBS_offset _ k y m a (julian_whole_day k) Hbs) as Hoff.
  unfold constructor in HtoBS.
  destruct (falsy (Some y) || falsy (Some m) || falsy (Some a));
    [discriminate|].
  apply Return_inj in HtoBS. cbn [field] in HtoBS. subst d.
  rewrite Hoff. reflexivity.
Qed.

Lemma toBS_then_toAD_witness :
  toAD (mk 2056 3 11) = Return (Config.epochADStart + 20526 * 86400000).
Proof.
  apply (toBS_then_toAD 20526 (mk 2056 3 11)); vm_compute; reflexivity.
Defined.

(** ** What [julianDaysToBS] can return *)

(** No more days than the rest of the row holds: the month scan stops at
    a month of the row, with no more days left than that month has. *)
Lemma month_scan_inside (n fuel : nat) (y month : Z) (row : list Z) (r : Q) :
  table_get y = Some row ->
  1 <= month -> month - 1 + Z.of_nat n = 12 -> (1 <= n)%nat ->
  (n < fuel)%nat ->
  (r <= inject_Z (sumZ (skipn (Z.to_nat (month - 1)) row)))%Q ->
  exists month' r' len,
    month_scan fuel y month r = Return (month', r')
    /\ month <= month' <= 12
    /\ array_get row (month' - 1) = Some len
    /\ (r' <= inject_Z len)%Q
    /\ ((0 <= r)%Q -> (0 <= r')%Q).
Proof.
  intro Hrow. destruct (table_get_Some _ _ Hrow) as (_ & Hlen & Hpos).
  revert fuel month r. induction n as [|n IH];
    intros fuel month r Hlo Hhi Hn Hfuel Hr; [lia|].
  destruct fuel as [|fuel]; [lia|]. cbn [month_scan]. rewrite Hrow.
  destruct (proj1 (array_get_row row (month - 1) Hlen)) as [x Hx]; [lia|].
  rewrite Hx. pose proof Hx as Hnth.
  apply array_get_nth in Hnth. destruct Hnth as [_ Hnth].
  rewrite (skipn_nth_cons _ _ _ Hnth), sumZ_cons, inject_Z_plus in Hr.
  destruct (Qgtb r (inject_Z x)) eqn:Hcmp.
  - apply Qgtb_true in Hcmp.
    destruct n as [|n].
    + replace (S (Z.to_nat (month - 1))) with (List.length row) in Hr by lia.
      rewrite skipn_all, sumZ_nil in Hr.
      change (inject_Z 0) with 0%Q in Hr. lra.
    + destruct (IH fuel (month + 1) (r - inject_Z x)%Q)
        as (m' & r' & len & Hscan & Hm' & Hget & Hle & Hnonneg);
        [lia | lia | lia | lia | |].
      { replace (Z.to_nat (month + 1 - 1)) with (S (Z.to_nat (month - 1)))
          by lia. lra. }
      exists m', r', len. repeat split; try assumption; try lia.
      intros _. apply Hnonneg. lra.
  - apply Qgtb_false in Hcmp.
    exists month, r, x. repeat split; try assumption; try lia. tauto.
Qed.

Lemma julianDaysToBS_bounds (jd : Q) :
  (jd - Config.epochJulianDays <= inject_Z table_days)%Q ->
  exists y m a row len,
    julianDaysToBS jd = Return (y, m, a)
    /\ table_get y = Some row
    /\ 1 <= m <= 12
    /\ array_get row (m - 1) = Some len
    /\ a <= len + 1
    /\ ((0 <= jd - Config.epochJulianDays)%Q -> 1 <= a).
Proof.
  intro Hr. unfold julianDaysToBS. cbn [Config.epochBS].
  rewrite <- year_days_table in Hr.
  destruct (year_scan_inside 91 year_fuel 2000 _ ltac:(lia) ltac:(lia)
              ltac:(lia) ltac:(rewrite year_fuel_value; lia) Hr)
    as (y & r & Hscan & Hy & Hpos & Hle).
  rewrite Hscan. cbn [bind].
  destruct (table_get_in_range y Hy) as [row Hrow].
  assert (Hle' : (r <= inject_Z (sumZ (skipn (Z.to_nat (1 - 1)) row)))%Q).
  { change (Z.to_nat (1 - 1)) with O. cbn [skipn].
    unfold year_total in Hle. now rewrite Hrow in Hle. }
  destruct (month_scan_inside 12 month_fuel y 1 row r Hrow ltac:(lia)
              ltac:(lia) ltac:(lia) ltac:(unfold month_fuel; lia) Hle')
    as (m & r' & len & Hmscan & Hm & Hget & Hlen & Hpos').
  rewrite Hmscan. cbn [bind].
  exists y, m, (Qceiling (r' + 1)), row, len.
  repeat split; try assumption; try lia.
  - assert (H1 : (r' + 1 <= inject_Z (len + 1))%Q)
      by (rewrite inject_Z_plus; change (inject_Z 1) with 1%Q; lra).
    apply Qceiling_resp_le in H1. now rewrite Qceiling_Z in H1.
  - intro H0. specialize (Hpos' (Hpos H0)).
    assert (H1 : (inject_Z 1 <= r' + 1)%Q)
      by (change (inject_Z 1) with 1%Q; lra).
    apply Qceiling_resp_le in H1. now rewrite Qceiling_Z in H1.
Qed.

Lemma julianDaysToBS_past_table_TypeError (jd : Q) :
  (inject_Z table_days < jd - Config.epochJulianDays)%Q ->
  julianDaysToBS jd = Throw TypeError.
Proof.
  intro Hgt. unfold julianDaysToBS. cbn [Config.epochBS].
  rewrite <- year_days_table in Hgt.
  now rewrite (year_scan_overflow 91 year_fuel 2000 _ ltac:(lia) ltac:(lia)
                 ltac:(rewrite year_fuel_value; lia) Hgt).
Qed.

(** X5. [julianDaysToBS] has two outcomes only.  More than the days of
    the whole table after the epoch, it throws the host's [TypeError].
    Otherwise it returns a year of the table, a month from 1 to 12 and a
    day that is at most one more than the length of that month, and at
    least 1 when the Julian day is not before the epoch. *)
Theorem julianDaysToBS_outcomes (jd : Q) :
  ((inject_Z table_days < jd - Config.epochJulianDays)%Q
   /\ julianDaysToBS jd = Throw TypeError)
  \/
  ((jd - Config.epochJulianDays <= inject_Z table_days)%Q
   /\ exists y m a row len,
        julianDaysToBS jd = Return (y, m, a)
        /\ table_get y = Some row
        /\ 1 <= m <= 12
        /\ array_get row (m - 1) = Some len
        /\ a <= len + 1
        /\ ((0 <= jd - Config.epochJulianDays)%Q -> 1 <= a)).
Proof.
  destruct (Qlt_le_dec (inject_Z table_days) (jd - Config.epochJulianDays))
    as [Hgt | Hle].
  - left. split; [exact Hgt | now apply julianDaysToBS_past_table_TypeError].
  - right. split; [exact Hle | now apply julianDaysToBS_bounds].
Qed.

(** X6. Inside its guard [toBS] returns a BS date whose year is a key of
    the table, whose month is from 1 to 12 and whose day is from 1 to
    one more than the length of that month: the date is valid or lies
    one day past the end of its month. *)
Theorem toBS_result_bounds (adDate : Z) :
  Config.epochADStart <= adDate <= Config.epochADEnd ->
  exists d row len,
    Date.toBS adDate = Return d
    /\ table_get (year d) = Some row
    /\ 1 <= month d <= 12
    /\ array_get row (month d - 1) = Some len
    /\ 1 <= day d <= len + 1.
Proof.
  intros Hin. rewrite (toBS_in_guard _ Hin). destruct Hin as [Hlo Hhi].
  pose proof (julian_le _ _ Hlo) as Hjlo.
  pose proof (julian_le _ _ Hhi) as Hjhi.
  rewrite julian_epochADStart in Hjlo. rewrite julian_epochADEnd in Hjhi.
  assert (Hle : (Julian.julian adDate - Config.epochJulianDays
                 <= inject_Z table_days)%Q).
  { rewrite table_days_value in *.
    change (inject_Z (33238 - 1)) with (33237 # 1)%Q in Hjhi.
    change (inject_Z 33238) with (33238 # 1)%Q. lra. }
  destruct (julianDaysToBS_bounds _ Hle)
    as (y & m & a & row & len & Hbs & Hrow & Hm & Hget & Ha & Ha').
  assert (H0 : (0 <= Julian.julian adDate - Config.epochJulianDays)%Q) by lra.
  specialize (Ha' H0).
  destruct (table_get_Some _ _ Hrow) as (Hy & _ & _).
  exists (mk y m a), row, len. cbn [year month day].
  repeat split; try assumption; try lia.
  unfold fromAD. rewrite Hbs. cbn [bind].
  apply constructor_nonzero; lia.
Qed.

Lemma toBS_result_bounds_witness :
  exists d row len,
    Date.toBS (-840585600000) = Return d
    /\ table_get (year d) = Some row
    /\ 1 <= month d <= 12
    /\ array_get row (month d - 1) = Some len
    /\ 1 <= day d <= len + 1.
Proof.
  apply (toBS_result_bounds (-840585600000)).
  unfold Config.epochADStart, Config.epochADEnd. lia.
Defined.

(** ** Before the epoch *)

Lemma julianDaysToBS_not_after_epoch (jd : Q) :
  (jd - Config.epochJulianDays <= 0)%Q ->
  julianDaysToBS jd
  = Return (2000, 1, Qceiling (jd - Config.epochJulianDays + 1))
  /\ Qceiling (jd - Config.epochJulianDays + 1) <= 1.
Proof.
  intro Hr. split.
  - unfold julianDaysToBS. cbn [Config.epochBS].
    rewrite year_fuel_value. cbn [year_scan].
    destruct (table_get_in_range 2000 ltac:(lia)) as [row Hrow].
    rewrite Hrow.
    pose proof (year_total_pos 2000 ltac:(lia)) as Htot.
    unfold year_total in Htot. rewrite Hrow in Htot.
    rewrite Zlt_Qlt in Htot. change (inject_Z 0) with 0%Q in Htot.
    rewrite reduce_sum_sumZ.
    assert (Hcmp : Qgtb (jd - Config.epochJulianDays) (inject_Z (sumZ row))
                   = false) by (apply Qgtb_false; lra).
    rewrite Hcmp. cbn [bind]. unfold month_fuel. cbn [month_scan].
    rewrite Hrow.
    destruct (table_get_Some _ _ Hrow) as (_ & Hlen & Hpos).
    destruct (proj1 (array_get_row row (1 - 1) Hlen)) as [x Hx]; [lia|].
    rewrite Hx. apply array_get_nth in Hx. destruct Hx as [_ Hnth].
    apply nth_error_In in Hnth.
    pose proof (proj1 (Forall_forall _ _) Hpos _ Hnth) as Hxpos.
    rewrite Zlt_Qlt in Hxpos. change (inject_Z 0) with 0%Q in Hxpos.
    assert (Hcmp' : Qgtb (jd - Config.epochJulianDays) (inject_Z x) = false)
      by (apply Qgtb_false; lra).
    rewrite Hcmp'. reflexivity.
  - assert (H1 : (jd - Config.epochJulianDays + 1 <= inject_Z 1)%Q)
      by (change (inject_Z 1) with 1%Q; lra).
    apply Qceiling_resp_le in H1. now rewrite Qceiling_Z in H1.
Qed.

(** X7. [fromAD] has no guard of its own.  For an AD date at or before
    the start of the supported range it reports no range error: the
    scans stay in the first month of the year 2000 and the day is the
    count of days from the epoch, rounded up, plus 1, which is at most 1.
    When that day is 0 the constructor throws its plain [Error];
    otherwise the result is the BS date of year 2000, month 1 and that
    day. *)
Theorem fromAD_not_after_epoch (adDate : Z) :
  adDate <= Config.epochADStart ->
  Qceiling (Julian.julian adDate - Config.epochJulianDays + 1) <= 1
  /\ fromAD adDate
     = if Qceiling (Julian.julian adDate - Config.epochJulianDays + 1) =? 0
       then Throw (Error "Year, month, and day are required")
       else Return (mk 2000 1
                      (Qceiling
                         (Julian.julian adDate - Config.epochJulianDays + 1))).
Proof.
  intro Hle. pose proof (julian_le _ _ Hle) as Hj.
  rewrite julian_epochADStart in Hj.
  assert (Hr : (Julian.julian adDate - Config.epochJulianDays <= 0)%Q) by lra.
  destruct (julianDaysToBS_not_after_epoch _ Hr) as [Hbs Hday].
  split; [exact Hday|].
  unfold fromAD. rewrite Hbs. cbn [bind]. unfold constructor.
  cbn [falsy field orb Z.eqb].
  destruct (Qceiling (Julian.julian adDate - Config.epochJulianDays + 1) =? 0);
    reflexivity.
Qed.

Lemma fromAD_not_after_epoch_witness :
  Qceiling (Julian.julian (-843264000000) - Config.epochJulianDays + 1) <= 1
  /\ fromAD (-843264000000)
     = if Qceiling (Julian.julian (-843264000000) - Config.epochJulianDays + 1)
          =? 0
       then Throw (Error "Year, month, and day are required")
       else Return (mk 2000 1
                      (Qceiling
                         (Julian.julian (-843264000000)
                          - Config.epochJulianDays + 1))).
Proof.
  apply (fromAD_not_after_epoch (-843264000000)).
  unfold Config.epochADStart. lia.
Defined.

(** The day before the epoch and the day before that. *)
Example fromAD_days_before_epoch :
  fromAD (-843264000000) = Throw (Error "Year, month, and day are required")
  /\ fromAD (-843350400000) = Return (mk 2000 1 (-1)).
Proof. split; vm_compute; reflexivity. Qed.

(** ** The time of day *)

Lemma same_day_compare (r1 r2 : Q) (total : Z) :
  same_day r1 r2 -> Qgtb r1 (inject_Z total) = Qgtb r2 (inject_Z total).
Proof.
  intros (k & Hk & Hlo & Hhi).
  destruct (Z_lt_le_dec total k) as [Hlt | Hle].
  - assert (Hk1 : total + 1 <= k) by lia.
    rewrite Zle_Qle, inject_Z_plus in Hk1.
    change (inject_Z 1) with 1%Q in Hk1.
    rewrite (proj2 (Qgtb_true r1 _)) by lra.
    rewrite (proj2 (Qgtb_true r2 _)) by lra. reflexivity.
  - rewrite Zle_Qle in Hle.
    rewrite (proj2 (Qgtb_false r1 _)) by lra.
    rewrite (proj2 (Qgtb_false r2 _)) by lra. reflexivity.
Qed.

Lemma same_day_minus (r1 r2 : Q) (total : Z) :
  same_day r1 r2 -> same_day (r1 - inject_Z total) (r2 - inject_Z total).
Proof.
  intros (k & Hk & Hlo & Hhi). exists (k - total).
  unfold Zminus. rewrite inject_Z_plus, inject_Z_opp.
  repeat split; lra.
Qed.

Lemma year_scan_same_day (fuel : nat) (y : Z) (r1 r2 : Q) :
  same_day r1 r2 ->
  same_day_scan (year_scan fuel y r1) (year_scan fuel y r2).
Proof.
  revert y r1 r2. induction fuel as [|fuel IH]; intros y r1 r2 H;
    cbn [year_scan]; [exact I|].
  destruct (table_get y) as [row|]; [|reflexivity].
  rewrite (same_day_compare _ _ _ H).
  destruct (Qgtb r2 (inject_Z (reduce_sum row))).
  - apply IH. now apply same_day_minus.
  - split; [reflexivity | exact H].
Qed.

Lemma month_scan_same_day (fuel : nat) (y month : Z) (r1 r2 : Q) :
  same_day r1 r2 ->
  same_day_scan (month_scan fuel y month r1) (month_scan fuel y month r2).
Proof.
  revert month r1 r2. induction fuel as [|fuel IH]; intros month r1 r2 H;
    cbn [month_scan]; [exact I|].
  destruct (table_get y) as [row|]; [|reflexivity].
  destruct (array_get row (month - 1)) as [len|];
    [|split; [reflexivity | exact H]].
  rewrite (same_day_compare _ _ _ H).
  destruct (Qgtb r2 (inject_Z len)).
  - apply IH. now apply same_day_minus.
  - split; [reflexivity | exact H].
Qed.

Lemma same_day_ceiling (r1 r2 : Q) :
  same_day r1 r2 -> Qceiling (r1 + 1) = Qceiling (r2 + 1).
Proof.
  intros (k & Hk & Hlo & Hhi).
  rewrite (Qceiling_day r2 k Hk).
  assert (Hup : (r1 + 1 <= inject_Z (k + 1))%Q)
    by (rewrite inject_Z_plus; change (inject_Z 1) with 1%Q; lra).
  apply Qceiling_resp_le in Hup. rewrite Qceiling_Z in Hup.
  pose proof (Qle_ceiling (r1 + 1)) as Hc.
  assert (Hlt : (inject_Z k < inject_Z (Qceiling (r1 + 1)))%Q) by lra.
  rewrite <- Zlt_Qlt in Hlt. lia.
Qed.

Lemma julianDaysToBS_same_day (jd1 jd2 : Q) :
  same_day (jd1 - Config.epochJulianDays) (jd2 - Config.epochJulianDays) ->
  julianDaysToBS jd1 = julianDaysToBS jd2.
Proof.
  intro Hsame. unfold julianDaysToBS. cbn [Config.epochBS].
  pose proof (year_scan_same_day year_fuel 2000 _ _ Hsame) as Hys.
  destruct (year_scan year_fuel 2000 (jd1 - Config.epochJulianDays))
    as [[y1 r1]| e1 |];
    destruct (year_scan year_fuel 2000 (jd2 - Config.epochJulianDays))
      as [[y2 r2]| e2 |];
    cbn [same_day_scan] in Hys; try contradiction; cbn [bind];
    [| now subst | reflexivity].
  destruct Hys as [<- Hr].
  pose proof (month_scan_same_day month_fuel y1 1 _ _ Hr) as Hms.
  destruct (month_scan month_fuel y1 1 r1) as [[m1 q1]| e1 |];
    destruct (month_scan month_fuel y1 1 r2) as [[m2 q2]| e2 |];
    cbn [same_day_scan] in Hms; try contradiction; cbn [bind];
    [| now subst | reflexivity].
  destruct Hms as [<- Hq]. now rewrite (same_day_ceiling _ _ Hq).
Qed.

(** Two Julian days that are the same whole number of days after the
    epoch convert alike. *)
Lemma julianDaysToBS_whole_day (jd1 jd2 : Q) (k : Z) :
  (jd1 == Config.epochJulianDays + inject_Z k)%Q ->
  (jd2 == Config.epochJulianDays + inject_Z k)%Q ->
  julianDaysToBS jd1 = julianDaysToBS jd2.
Proof.
  intros H1 H2. apply julianDaysToBS_same_day.
  exists k. repeat split; lra.
Qed.

(** X8. [julianDaysToBS] rounds the time of day up.  Every Julian day
    after one whole day since the epoch and up to the next converts as
    that next whole day does: an instant during a day gets the BS date
    of the midnight that ends the day. *)
Theorem julianDaysToBS_rounds_up (jd : Q) (k : Z) :
  (inject_Z k - 1 < jd - Config.epochJulianDays)%Q ->
  (jd - Config.epochJulianDays <= inject_Z k)%Q ->
  julianDaysToBS jd = julianDaysToBS (Config.epochJulianDays + inject_Z k).
Proof.
  intros Hlo Hhi. apply julianDaysToBS_same_day.
  exists k. repeat split; try assumption; lra.
Qed.

Lemma julianDaysToBS_rounds_up_witness :
  julianDaysToBS (24308590 # 10)
  = julianDaysToBS (Config.epochJulianDays + inject_Z 31).
Proof.
  apply (julianDaysToBS_rounds_up (24308590 # 10) 31);
    vm_compute; reflexivity || discriminate.
Defined.

(** ** Nepali numerals *)






(** ** The first day of a month, through the AD date *)

Lemma toBS_of_round_trip (d : t) (y m a : Z) :
  validDate d = true ->
  round_trip d = Return (y, m, a) ->
  y <> 0 -> m <> 0 -> a <> 0 ->
  Date.toBS (Config.epochADStart + day_offset d * 86400000)
  = Return (mk y m a).
Proof.
  intros Hv Hrt Hy Hm Ha.
  rewrite (toBS_in_guard _ (toAD_range d Hv)).
  destruct (bsToJulianDays_spec d Hv) as (j & Hj & Heq).
  unfold round_trip in Hrt. rewrite Hj in Hrt. cbn [bind] in Hrt.
  unfold fromAD.
  rewrite (julianDaysToBS_whole_day _ j (day_offset d)
             (julian_whole_day _) Heq), Hrt.
  cbn [bind]. now apply constructor_nonzero.
Qed.

(** X10. The first day of a month, other than the epoch, does not come
    back.  [toAD] returns its AD date, and [toBS] of that AD date returns
    the month before with a day one more than the length of that month
    (the twelfth month of the year before, for the first month of a
    year): a BS date that is not valid. *)
Theorem toAD_then_toBS_first_day (d : t) :
  validDate d = true -> day d = 1 -> ~ (year d = 2000 /\ month d = 1) ->
  exists adDate y i row len,
    toAD d = Return adDate
    /\ ((2 <= month d /\ y = year d /\ i = month d - 2)
        \/ (month d = 1 /\ y = year d - 1 /\ i = 11))
    /\ table_get y = Some row
    /\ array_get row i = Some len
    /\ Date.toBS adDate = Return (mk y (i + 1) (len + 1))
    /\ validDate (mk y (i + 1) (len + 1)) = false.
Proof.
  intros Hv Hday Hnot.
  pose proof Hv as Hvalid. apply validDate_valid in Hvalid.
  destruct Hvalid as (row0 & len0 & Hrow0 & Hm & _ & _).
  destruct (table_get_Some _ _ Hrow0) as (Hy & _ & _).
  exists (Config.epochADStart + day_offset d * 86400000).
  destruct (Z_le_dec 2 (month d)) as [Hmonth | Hmonth].
  - destruct (round_trip_first_of_month d Hv Hday Hmonth)
      as (row & len & Hrow & Hget & Hrt).
    destruct (table_get_Some _ _ Hrow) as (_ & _ & Hpos).
    assert (Hlenpos : 0 < len).
    { apply array_get_nth in Hget. destruct Hget as [_ Hnth].
      apply (proj1 (Forall_forall _ _) Hpos), (nth_error_In _ _ Hnth). }
    exists (year d), (month d - 2), row, len.
    replace (month d - 2 + 1) with (month d - 1) by lia.
    repeat split; try assumption.
    + now apply toAD_valid.
    + left. repeat split. lia.
    + apply (toBS_of_round_trip d _ _ _ Hv Hrt); lia.
    + unfold validDate. cbn [year month day]. rewrite Hrow.
      replace (month d - 1 - 1) with (month d - 2) by lia. rewrite Hget.
      rewrite !andb_false_iff. right. lia.
  - assert (Hm1 : month d = 1) by lia.
    assert (Hyear : 2000 < year d) by lia.
    destruct (round_trip_first_of_year d Hv Hday Hm1 Hyear)
      as (row & len & Hrow & Hget & Hrt).
    destruct (table_get_Some _ _ Hrow) as (_ & _ & Hpos).
    assert (Hlenpos : 0 < len).
    { apply array_get_nth in Hget. destruct Hget as [_ Hnth].
      apply (proj1 (Forall_forall _ _) Hpos), (nth_error_In _ _ Hnth). }
    exists (year d - 1), 11, row, len.
    change (11 + 1) with 12.
    repeat split; try assumption.
    + now apply toAD_valid.
    + right. repeat split. exact Hm1.
    + apply (toBS_of_round_trip d _ _ _ Hv Hrt); lia.
    + unfold validDate. cbn [year month day]. rewrite Hrow.
      change (12 - 1) with 11. rewrite Hget.
      rewrite !andb_false_iff. right. lia.
Qed.

Lemma toAD_then_toBS_first_day_witness :
  exists adDate y i row len,
    toAD (mk 2082 1 1) = Return adDate
    /\ ((2 <= 1 /\ y = 2082 /\ i = 1 - 2)
        \/ (1 = 1 /\ y = 2082 - 1 /\ i = 11))
    /\ table_get y = Some row
    /\ array_get row i = Some len
    /\ Date.toBS adDate = Return (mk y (i + 1) (len + 1))
    /\ validDate (mk y (i + 1) (len + 1)) = false.
Proof.
  apply (toAD_then_toBS_first_day (mk 2082 1 1)).
  - vm_compute. reflexivity.
  - reflexivity.
  - simpl. lia.
Defined.

(** ** The name of the day *)

Lemma getDay_whole_day (localTZA k : Z) :
  JSDate.getDay localTZA (Config.epochADStart + k * 86400000)
  = (k + localTZA / 86400000 + 3) mod 7.
Proof.
  unfold JSDate.getDay, JSDate.msPerDay.
  replace (Config.epochADStart + k * 86400000 + localTZA)
    with ((k - 9759) * 86400000 + localTZA)
    by (unfold Config.epochADStart; lia).
  rewrite Z.div_add_l by lia.
  replace (k - 9759 + localTZA / 86400000 + 4)
    with (k + localTZA / 86400000 + 3 + (-1394) * 7) by lia.
  apply Z.mod_add. lia.
Qed.

Lemma weekday_names (romanized localized : bool) (i : Z) :
  0 <= i < 7 ->
  exists name,
    (if localized then array_get Config.weekdaysLocal i
     else if romanized then values_at Config.weekdays i
          else keys_at Config.weekdays i) = Some name.
Proof.
  intro Hi.
  assert (Hcases : i = 0 \/ i = 1 \/ i = 2 \/ i = 3 \/ i = 4 \/ i = 5 \/ i = 6)
    by lia.
  destruct localized, romanized;
    repeat (destruct Hcases as [-> | Hcases]; [eexists; reflexivity|]);
    rewrite Hcases; eexists; reflexivity.
Qed.

Lemma dayName_valid (localTZA : Z) (romanized localized : bool) (d : t) :
  validDate d = true -> romanized && localized = false ->
  dayName localTZA romanized localized d
  = Return
      (if localized
       then array_get Config.weekdaysLocal
              ((day_offset d + localTZA / 86400000 + 3) mod 7)
       else if romanized
            then values_at Config.weekdays
                   ((day_offset d + localTZA / 86400000 + 3) mod 7)
            else keys_at Config.weekdays
                   ((day_offset d + localTZA / 86400000 + 3) mod 7)).
Proof.
  intros Hv Hopt. unfold dayName. rewrite Hopt, (toAD_valid d Hv).
  cbn [bind]. rewrite getDay_whole_day.
  destruct localized; reflexivity.
Qed.

(** X11. On a valid date, with at most one of the two options set,
    [dayName] returns a name, never [undefined], in every zone: the entry
    of its list of seven at the index that is, modulo 7, the days of the
    date since the epoch, plus the whole days of the zone offset, plus 3
    (1943-04-14 was a Wednesday). *)
Theorem dayName_returns_name
        (localTZA : Z) (romanized localized : bool) (d : t) :
  validDate d = true -> romanized && localized = false ->
  exists name,
    dayName localTZA romanized localized d = Return (Some name)
    /\ (if localized
        then array_get Config.weekdaysLocal
               ((day_offset d + localTZA / 86400000 + 3) mod 7)
        else if romanized
             then values_at Config.weekdays
                    ((day_offset d + localTZA / 86400000 + 3) mod 7)
             else keys_at Config.weekdays
                    ((day_offset d + localTZA / 86400000 + 3) mod 7))
       = Some name.
Proof.
  intros Hv Hopt.
  destruct (weekday_names romanized localized
              ((day_offset d + localTZA / 86400000 + 3) mod 7))
    as [name Hname]; [apply Z.mod_pos_bound; lia|].
  exists name. split; [|exact Hname].
  rewrite (dayName_valid _ _ _ _ Hv Hopt). now rewrite Hname.
Qed.

Lemma dayName_returns_name_witness :
  exists name,
    dayName 0 false true (mk 2082 5 18) = Return (Some name)
    /\ array_get Config.weekdaysLocal
         ((day_offset (mk 2082 5 18) + 0 / 86400000 + 3) mod 7)
       = Some name.
Proof.
  apply (dayName_returns_name 0 false true (mk 2082 5 18));
    vm_compute; reflexivity.
Defined.

(** X12. [dayName] reads the weekday in the zone of the host from an AD
    date at UTC midnight.  In a zone behind UTC by up to a day it gives
    the name that a zone at or ahead of UTC by less than a day gives to
    the day before. *)
Theorem dayName_behind_utc
        (west east : Z) (romanized localized : bool) (d d' : t) :
  validDate d = true -> validDate d' = true ->
  romanized && localized = false ->
  -86400000 <= west < 0 -> 0 <= east < 86400000 ->
  day_offset d = day_offset d' + 1 ->
  dayName west romanized localized d = dayName east romanized localized d'.
Proof.
  intros Hv Hv' Hopt Hwest Heast Hoff.
  rewrite (dayName_valid _ _ _ _ Hv Hopt), (dayName_valid _ _ _ _ Hv' Hopt).
  replace (west / 86400000) with (-1)
    by (apply Z.div_unique with (r := west + 86400000); lia).
  rewrite (Z.div_small east) by lia.
  replace (day_offset d + -1 + 3) with (day_offset d' + 0 + 3) by lia.
  reflexivity.
Qed.

Lemma dayName_behind_utc_witness :
  dayName (-14400000) false true (mk 2082 5 25)
  = dayName 20700000 false true (mk 2082 5 24).
Proof.
  apply (dayName_behind_utc (-14400000) 20700000 false true
           (mk 2082 5 25) (mk 2082 5 24));
    try (vm_compute; reflexivity); lia.
Defined.

(** The README gives Tuesday for BS 2082-05-25, the AD date 2025-09-10,
    a Wednesday: the name in a zone behind UTC. *)
Example dayName_2082_05_25 :
  dayName 0 false true (mk 2082 5 25) = Return (Some "Wednesday"%string)
  /\ dayName (-14400000) false true (mk 2082 5 25)
     = Return (Some "Tuesday"%string).
Proof. split; vm_compute; reflexivity. Qed.

(** ** The table *)

Lemma table_rows_shape : forallb row_shape Config.monthDaysInBSYear = true.
Proof. vm_compute. reflexivity. Qed.

(** X13. The table has a row for the years 2000 to 2090 and for no other
    year; every row has twelve month lengths, each from 29 to 32, that add
    up to 365 or 366; and the days of the table are the days from
    1943-04-14 to 2034-04-13, both included. *)
Theorem table_shape :
  (forall y,
      (2000 <= y <= 2090
       /\ exists row,
            table_get y = Some row
            /\ List.length row = 12%nat
            /\ Forall (fun len => 29 <= len <= 32) row
            /\ (sumZ row = 365 \/ sumZ row = 366))
      \/ ((y < 2000 \/ 2090 < y) /\ table_get y = None))
  /\ Config.epochADEnd
     = Config.epochADStart + (table_days - 1) * 86400000.
Proof.
  split; [|vm_compute; reflexivity].
  intro y. destruct (table_get y) as [row|] eqn:Hrow.
  - left. destruct (table_get_Some _ _ Hrow) as (Hy & Hlen & _).
    split; [exact Hy|]. exists row. repeat split; try assumption.
    + apply lookup_In in Hrow.
      pose proof (proj1 (forallb_forall _ _) table_rows_shape _ Hrow) as Hs.
      unfold row_shape in Hs. cbn [snd] in Hs.
      apply andb_true_iff in Hs. destruct Hs as [Hs _].
      apply Forall_forall. intros len Hin.
      apply (proj1 (forallb_forall _ _) Hs) in Hin. lia.
    + apply lookup_In in Hrow.
      pose proof (proj1 (forallb_forall _ _) table_rows_shape _ Hrow) as Hs.
      unfold row_shape in Hs. cbn [snd] in Hs.
      apply andb_true_iff in Hs. destruct Hs as [_ Hs].
      apply orb_true_iff in Hs. lia.
  - right. split; [|reflexivity].
    destruct (Z_lt_dec y 2000) as [H|H]; [now left|].
    destruct (Z_lt_dec 2090 y) as [H'|H']; [now right|].
    destruct (table_get_in_range y ltac:(lia)) as [row Hrow'].
    congruence.
Qed.

(** ** Back to the Julian day *)

(** [#bsToJulianDays] validates nothing: on any date with a year of the
    table and a month from 1 it returns the epoch plus the days the date
    counts. *)
Lemma bsToJulianDays_in_table (d : t) (row : list Z) :
  table_get (year d) = Some row -> 1 <= month d ->
  exists j, bsToJulianDays d = Return j
            /\ (j == Config.epochJulianDays + inject_Z (day_offset d))%Q.
Proof.
  intros Hrow Hm.
  destruct (table_get_Some _ _ Hrow) as (Hy & _ & _).
  unfold bsToJulianDays. cbn [Config.epochBS].
  destruct (add_years_spec (Z.to_nat (year d - 2000)) 2000
              Config.epochJulianDays) as (j0 & Hj0 & Heq0); [lia | lia |].
  rewrite Hj0. cbn [bind]. rewrite Hrow.
  eexists. split; [reflexivity|].
  unfold day_offset. rewrite Hrow, Heq0, reduce_sum_sumZ.
  unfold slice0. destruct (month d - 1 <? 0) eqn:E; [lia|].
  rewrite !inject_Z_plus. lra.
Qed.

(** X14. On a whole number of days after the epoch, whatever BS date
    [#julianDaysToBS] returns, valid or not, [#bsToJulianDays] takes back
    to the same Julian day: the two private conversions are inverse on
    whole days, and only the validation of [toAD] stands between a
    returned date and its AD date. *)
Theorem julianDaysToBS_then_bsToJulianDays (j : Q) (k y m a : Z) :
  (j == Config.epochJulianDays + inject_Z k)%Q ->
  julianDaysToBS j = Return (y, m, a) ->
  exists j', bsToJulianDays (mk y m a) = Return j' /\ (j' == j)%Q.
Proof.
  intros Hj Hbs.
  pose proof (julianDaysToBS_offset j k y m a Hj Hbs) as Hoff.
  destruct (Qlt_le_dec (inject_Z table_days) (j - Config.epochJulianDays))
    as [Hgt | Hle].
  - rewrite (julianDaysToBS_past_table_TypeError j Hgt) in Hbs. discriminate.
  - destruct (julianDaysToBS_bounds j Hle)
      as (y' & m' & a' & row & len & Hbs' & Hrow & Hm & _).
    rewrite Hbs in Hbs'. apply Return_inj in Hbs'.
    injection Hbs' as <- <- <-.
    destruct (bsToJulianDays_in_table (mk y m a) row Hrow ltac:(cbn; lia))
      as (j' & Hj' & Heq).
    exists j'. split; [exact Hj'|]. rewrite Heq, Hoff, Hj. reflexivity.
Qed.

Lemma julianDaysToBS_then_bsToJulianDays_witness :
  exists j', bsToJulianDays (mk 2000 1 31) = Return j'
             /\ (j' == 24308585 # 10)%Q.
Proof.
  apply (julianDaysToBS_then_bsToJulianDays (24308585 # 10) 30 2000 1 31);
    vm_compute; reflexivity.
Defined.
